(** * NeuroKit: the ECG processing pipeline and the PPG interval aggregator

    A shallow embedding of [neurokit2/ecg/ecg_process.py] and
    [neurokit2/ppg/ppg_intervalrelated.py].

    Python exceptions are values of [exn]; code that can raise returns
    [exn + A].  The two pieces of hidden state the source has are threaded
    explicitly through a small state-and-error monad: the default [output={}]
    dictionaries of the two PPG helpers (created once, at function
    definition, and shared by every call that omits the argument), and, for
    the ECG pipeline, the order in which the collaborating stages are called.

    A sample is the rational value of a double, an infinity or NaN; the
    one place where the code computes with samples, [np.mean], is modelled
    in binary64 arithmetic, every operation rounded to nearest-even, in the
    order numpy adds.  A feature dictionary is modelled by its keys and
    values; the order of its keys, which becomes the order of the columns
    of the summary frame, is not modelled.  pandas frames carry
    the default [RangeIndex], so a frame is its row count and its ordered
    list of named columns (names may repeat, as in pandas). *)

From Stdlib Require Import QArith SpecFloat.
From stdpp Require Import gmap strings list sorting.

Close Scope Q_scope.
Open Scope string_scope.
Open Scope list_scope.

(** ** Values *)

Inductive float :=
| Num (q : Q)
| NaN
| Inf (negative : bool).

(** A cell of an input table: a number or a text (the [Label] column of an
    epoch is text). *)
Inductive cell :=
| Flt (x : float)
| Txt (s : string).

Inductive exn :=
| ValueError (msg : string)
| KeyError (key : string)
| IndexError (msg : string)
| TypeError (msg : string)
| OtherError (name msg : string).

Definition result (A : Type) : Type := (exn + A)%type.

Abbreviation Ok := inr.
Abbreviation Raise := inl.

(** ** State-and-error monad *)

Module PyMonad.

Definition M (S A : Type) : Type := S -> result A * S.

Definition ret {S A} (a : A) : M S A := fun s => (Ok a, s).

Definition raise {S A} (e : exn) : M S A := fun s => (Raise e, s).

(** An exception skips the continuation; mutations made before it stay. *)
Definition bind {S A B} (m : M S A) (k : A -> M S B) : M S B :=
  fun s =>
    match m s with
    | (inl e, s') => (inl e, s')
    | (inr a, s') => k a s'
    end.

(** A pure computation that may raise. *)
Definition lift {S A} (r : result A) : M S A := fun s => (r, s).

Definition get {S} : M S S := fun s => (Ok s, s).
Definition put {S} (s : S) : M S unit := fun _ => (Ok tt, s).

(** [for x in xs: acc = body(acc, x)] *)
Fixpoint for_each {S A B} (xs : list A) (acc : B) (body : B -> A -> M S B) : M S B :=
  match xs with
  | [] => ret acc
  | x :: xs' => bind (body acc x) (fun acc' => for_each xs' acc' body)
  end.

End PyMonad.
Import PyMonad.

Declare Scope py_scope.
Delimit Scope py_scope with py.
Notation "x <- c ;; k" := (bind c (fun x => k))
  (at level 100, c at next level, right associativity) : py_scope.
Notation "c ;;; k" := (bind c (fun _ => k))
  (at level 100, right associativity) : py_scope.

(** ** pandas and numpy *)

Record DataFrame (A : Type) := mkFrame {
  nrows : nat;
  cols : list (string * list A)
}.
Arguments mkFrame {A} _ _.
Arguments nrows {A} _.
Arguments cols {A} _.

(** Every column has one entry per row. *)
Definition wf_frame {A} (df : DataFrame A) : Prop :=
  Forall (fun c => length c.2 = nrows df) (cols df).

(** [data.columns] *)
Definition columns {A} (df : DataFrame A) : list string := map fst (cols df).

(** [data[key]] selects a [Series] when one column bears the name and a
    sub-frame when several do; [.values] of them is a 1-D or a 2-D array. *)
Inductive ndarray (A : Type) :=
| Arr1 (xs : list A)
| Arr2 (rows : list (list A)).
Arguments Arr1 {A} _.
Arguments Arr2 {A} _.

Definition row_of {A} (cs : list (list A)) (i : nat) : list A :=
  omap (fun c : list A => c !! i) cs.

Definition getitem_values {A} (df : DataFrame A) (key : string) : result (ndarray A) :=
  match filter (fun c => c.1 = key) (cols df) with
  | [] => Raise (KeyError key)
  | [c] => Ok (Arr1 c.2)
  | cs => Ok (Arr2 (map (row_of (map snd cs)) (seq 0 (nrows df))))
  end.

(** Python's [pat in s] on strings. *)
Fixpoint contains (pat s : string) : bool :=
  String.prefix pat s ||
  match s with
  | EmptyString => false
  | String _ s' => contains pat s'
  end.

Definition elements {A} (a : ndarray A) : list A :=
  match a with
  | Arr1 xs => xs
  | Arr2 rows => concat rows
  end.

Definition is_txt (c : cell) : bool :=
  match c with Txt _ => true | Flt _ => false end.


(** *** binary64 arithmetic

    The arrays are of dtype float64: 53 bits of precision, infinities at
    exponent 1024.  The operations are those of the IEEE 754
    specification [SpecFloat], rounding to nearest-even. *)

Definition prec : Z := 53.
Definition emax : Z := 1024.

Definition fadd : spec_float -> spec_float -> spec_float := SFadd prec emax.
Definition fdiv : spec_float -> spec_float -> spec_float := SFdiv prec emax.

(** An integer as a double. *)
Definition binary64_of_Z (z : Z) : spec_float := binary_normalize prec emax z 0 false.

(** The double of a sample.  The quotient is exact on the value of every
    double. *)
Definition to_binary64 (x : float) : spec_float :=
  match x with
  | Num q => fdiv (binary64_of_Z (Qnum q)) (binary64_of_Z (Zpos (Qden q)))
  | NaN => S754_nan
  | Inf negative => S754_infinity negative
  end.

(** The sample a double stands for, as a fraction in lowest terms. *)
Definition of_binary64 (f : spec_float) : float :=
  match f with
  | S754_zero _ => Num 0%Q
  | S754_infinity negative => Inf negative
  | S754_nan => NaN
  | S754_finite negative m e =>
      Num (Qred (inject_Z (cond_Zopp negative (Zpos m)) * Qpower 2 e))
  end.

Definition cell_to_binary64 (c : cell) : spec_float :=
  match c with
  | Flt x => to_binary64 x
  | Txt _ => S754_nan
  end.

(** *** numpy's sum of doubles (pairwise summation)

    Fewer than eight numbers are added one after the other, starting from
    minus zero. *)
Definition sum_from (acc : spec_float) (xs : list spec_float) : spec_float :=
  foldl fadd acc xs.

(** Up to 128 numbers: eight running sums over the groups of eight, ... *)
Fixpoint add_groups (groups : nat) (r rest : list spec_float)
    : list spec_float * list spec_float :=
  match groups with
  | O => (r, rest)
  | S groups' => add_groups groups' (zip_with fadd r (take 8 rest)) (drop 8 rest)
  end.

(** ... combined two by two, and then the numbers left over. *)
Definition block_sum (a : list spec_float) : spec_float :=
  let '(r, rest) := add_groups (length a / 8 - 1) (take 8 a) (drop 8 a) in
  match r with
  | [r0; r1; r2; r3; r4; r5; r6; r7] =>
      sum_from (fadd (fadd (fadd r0 r1) (fadd r2 r3)) (fadd (fadd r4 r5) (fadd r6 r7))) rest
  | _ => S754_nan
  end.

(** More than 128 numbers are split in two, the first part a multiple of
    eight long.  The recursion halves the length; [fuel] bounds its depth. *)
Fixpoint pairwise_sum (fuel : nat) (a : list spec_float) : spec_float :=
  let n := length a in
  if (n <? 8)%nat then sum_from (S754_zero true) a
  else if (n <=? 128)%nat then block_sum a
  else
    match fuel with
    | O => S754_nan
    | S fuel' =>
        let n2 := (n / 2 - (n / 2) mod 8)%nat in
        fadd (pairwise_sum fuel' (take n2 a)) (pairwise_sum fuel' (drop n2 a))
    end.

(** [np.add.reduce]: the pairwise sum added to the identity of addition. *)
Definition np_sum (a : list spec_float) : spec_float :=
  fadd (S754_zero false) (pairwise_sum (length a) a).

(** [np.mean]: the sum of all entries divided by their number, in binary64;
    NaN for an empty array or when an entry is NaN, an infinity when the
    sum overflows; text cannot be averaged. *)
Definition np_mean (a : ndarray cell) : result float :=
  let xs := elements a in
  if existsb is_txt xs then Raise (TypeError "unsupported operand type(s)")
  else if (length xs =? 0)%nat then Ok NaN
  else Ok (of_binary64
             (fdiv (np_sum (map cell_to_binary64 xs))
                   (binary64_of_Z (Z.of_nat (length xs))))).

(** Truth value of an entry: non-zero numbers, infinities, NaN and
    non-empty texts. *)
Definition truthy (c : cell) : bool :=
  match c with
  | Flt (Num q) => negb (Qeq_bool q 0)
  | Flt NaN => true
  | Flt (Inf _) => true
  | Txt s => negb (String.eqb s "")
  end.

Fixpoint where_from (i : nat) (xs : list cell) : list nat :=
  match xs with
  | [] => []
  | x :: xs' => if truthy x then i :: where_from (S i) xs' else where_from (S i) xs'
  end.

Fixpoint where_rows_from (i : nat) (rows : list (list cell)) : list nat :=
  match rows with
  | [] => []
  | r :: rows' => replicate (length (filter (fun c => truthy c = true) r)) i
                    ++ where_rows_from (S i) rows'
  end.

(** [np.where(a)[0]]: the (row) index of every truthy entry, in row-major
    order. *)
Definition np_where0 (a : ndarray cell) : list nat :=
  match a with
  | Arr1 xs => where_from 0 xs
  | Arr2 rows => where_rows_from 0 rows
  end.

(** ** The PPG interval aggregator *)

Module PPG.

(** What a feature dictionary holds. *)
Inductive pyval :=
| Scalar (c : cell)
| RowVals (cs : list cell)
| Array (a : ndarray float).

Abbreviation dict := (gmap string pyval).

(** The two default [output={}] objects, alive across calls. *)
Record defaults := mkDefaults {
  formatinput_output : dict;
  hrv_output : dict
}.

(** The state right after the module is imported. *)
Definition fresh : defaults := mkDefaults ∅ ∅.

Definition rate_msg : string :=
  "NeuroKit error: ppg_intervalrelated(): Wrong input," +:+
  "we couldn't extract heart rate. Please make sure" +:+
  "your DataFrame contains a `PPG_Rate` column.".

Definition peaks_msg : string :=
  "NeuroKit error: ppg_intervalrelated(): Wrong input," +:+
  "we couldn't extract peaks. Please make sure" +:+
  "your DataFrame contains a `PPG_Peaks` column.".

(** [d.update(other)] *)
Definition update (d other : dict) : dict := other ∪ d.

(** [data["Label"].iloc[0]] *)
Definition label_iloc0 (data : DataFrame cell) : result pyval :=
  match getitem_values data "Label" with
  | inl e => Raise e
  | inr (Arr1 []) | inr (Arr2 []) =>
      Raise (IndexError "single positional indexer is out-of-bounds")
  | inr (Arr1 (c :: _)) => Ok (Scalar c)
  | inr (Arr2 (r :: _)) => Ok (RowVals r)
  end.

(** The index sequence handed to the variability engine (line 128). *)
Definition peaks_indices (data : DataFrame cell) : result (list nat) :=
  match getitem_values data "PPG_Peaks" with
  | inl e => Raise e
  | inr a => Ok (np_where0 a)
  end.

(** The columns the two schema checks count. *)
Definition rate_cols (data : DataFrame cell) : list string :=
  filter (fun col => contains "PPG_Rate" col = true) (columns data).

Definition peaks_cols (data : DataFrame cell) : list string :=
  filter (fun i => contains "PPG_Peaks" i = true) (columns data).

(** A dense events mask holds zeros and ones. *)
Definition is_one (c : cell) : bool :=
  match c with Flt (Num q) => Qeq_bool q 1 | _ => false end.

Definition is_zero (c : cell) : bool :=
  match c with Flt (Num q) => Qeq_bool q 0 | _ => false end.

Definition binary_mask (mask : list cell) : Prop :=
  Forall (fun c => is_zero c || is_one c = true) mask.

Section Aggregator.

(** The variability-metric engine [hrv], an external collaborator: from
    the [{"PPG_Peaks": indices}] record and the sampling rate to a
    one-row frame of numeric metrics, or an exception. *)
Variable hrv : gmap string (list nat) -> Z -> result (DataFrame float).

(** [output] is [None] when the caller omits the argument: the function
    then works on its default object, which is stored back. *)
Definition _ppg_intervalrelated_formatinput
    (data : DataFrame cell) (output : option dict) : M defaults dict :=
  (let colnames := columns data in
   if (length (filter (fun i => contains "PPG_Rate" i = true) colnames) =? 0)%nat
   then raise (ValueError rate_msg)
   else
     signal <- lift (getitem_values data "PPG_Rate") ;;
     m <- lift (np_mean signal) ;;
     match output with
     | Some out => ret (<["PPG_Rate_Mean" := Scalar (Flt m)]> out)
     | None =>
         st <- get ;;
         let out := <["PPG_Rate_Mean" := Scalar (Flt m)]> (formatinput_output st) in
         put (mkDefaults out (hrv_output st)) ;;;
         ret out
     end)%py.

(** [for column in results.columns: output[column] = results[column].values] *)
Definition store_columns (results : DataFrame float) (out : dict) : result dict :=
  foldl (fun acc column =>
           match acc with
           | inl e => inl e
           | inr o =>
               match getitem_values results column with
               | inl e => inl e
               | inr a => inr (<[column := Array a]> o)
               end
           end) (Ok out) (columns results).

Definition _ppg_intervalrelated_hrv
    (data : DataFrame cell) (sampling_rate : Z) (output : option dict)
    : M defaults dict :=
  (let colnames := columns data in
   if (length (filter (fun i => contains "PPG_Peaks" i = true) colnames) =? 0)%nat
   then raise (ValueError peaks_msg)
   else
     peaks <- lift (peaks_indices data) ;;
     let peaks := {["PPG_Peaks" := peaks]} in
     results <- lift (hrv peaks sampling_rate) ;;
     match output with
     | Some out => lift (store_columns results out)
     | None =>
         st <- get ;;
         out <- lift (store_columns results (hrv_output st)) ;;
         put (mkDefaults (formatinput_output st) out) ;;;
         ret out
     end)%py.

(** The argument is a frame or a dict of frames; the result a one-row
    table or one row per label. *)
Inductive input :=
| Table (data : DataFrame cell)
| Epochs (data : list (string * DataFrame cell)).

Inductive summary :=
| SummaryRow (intervals : dict)
| SummaryRows (intervals : gmap string dict).

(** One pass of the loop over the labels (lines 75 to 88): a fresh
    container for the label, its label field, the rate, the metrics. *)
Definition epoch_step (sampling_rate : Z) (intervals : gmap string dict)
    (item : string * DataFrame cell) : M defaults (gmap string dict) :=
  (let '(index, df) := item in
   let row : dict := ∅ in
   label <- lift (label_iloc0 df) ;;
   let row := <["Label" := label]> row in
   row <- _ppg_intervalrelated_formatinput df (Some row) ;;
   row <- _ppg_intervalrelated_hrv df sampling_rate (Some row) ;;
   ret (<[index := row]> intervals))%py.

Definition ppg_intervalrelated (data : input) (sampling_rate : Z) : M defaults summary :=
  (match data with
   | Table data =>
       let intervals : dict := ∅ in
       let rate_cols := filter (fun col => contains "PPG_Rate" col = true) (columns data) in
       if (length rate_cols =? 1)%nat then
         o1 <- _ppg_intervalrelated_formatinput data None ;;
         let intervals := update intervals o1 in
         o2 <- _ppg_intervalrelated_hrv data sampling_rate None ;;
         let intervals := update intervals o2 in
         ret (SummaryRow intervals)
       else raise (ValueError rate_msg)
   | Epochs data =>
       intervals <- for_each data (∅ : gmap string dict) (epoch_step sampling_rate) ;;
       ret (SummaryRows intervals)
   end)%py.

End Aggregator.

End PPG.

(** ** The ECG pipeline orchestrator *)

Module ECG.

(** The collaborating stages, in the order the pipeline lists them. *)
Inductive stage := Sanitize | Clean | Peaks | Rate | Quality | Delineate | Phase.

(** Entries of the info record: event indices, the sampling rate, a text. *)
Inductive info_val :=
| Indices (idx : list nat)
| IntVal (z : Z)
| TextVal (s : string).

Abbreviation info := (gmap string info_val).

(** The imported stage functions.  Each may raise. *)
Record collaborators := mkCollaborators {
  signal_sanitize : list float -> result (list float);
  ecg_clean : list float -> Z -> string -> result (list float);
  ecg_peaks : list float -> Z -> string -> bool -> result (DataFrame float * info);
  signal_rate : info -> Z -> nat -> result (list float);
  ecg_quality : list float -> info_val -> Z -> result (list float);
  ecg_delineate : list float -> info -> Z -> result (DataFrame float * info);
  ecg_phase : list float -> info -> info -> result (DataFrame float)
}.

(** Calling a stage records it in the trace, whether or not it raises. *)
Definition call {A} (s : stage) (r : result A) : M (list stage) A :=
  fun trace => (r, trace ++ [s]).

Definition length_msg : string := "All arrays must be of the same length".

(** [pd.DataFrame({name: array, ...})]: the arrays must agree in length.
    The keys of a dict literal are distinct. *)
Definition pd_DataFrame {A} (entries : list (string * list A)) : result (DataFrame A) :=
  match entries with
  | [] => Ok (mkFrame 0 [])
  | e :: rest =>
      if forallb (fun e' => (length e'.2 =? length e.2)%nat) rest
      then Ok (mkFrame (length e.2) entries)
      else Raise (ValueError length_msg)
  end.

(** Reindexing a column to [n] rows fills the new rows with NaN. *)
Definition reindex (n : nat) (c : list float) : list float :=
  c ++ replicate (n - length c) NaN.

(** [pd.concat(objs, axis=1)] on frames with default indexes: the outer
    join of the indexes is the longest one; every column of every frame
    is kept, in order, names repeated or not. *)
Definition pd_concat_axis1 (objs : list (DataFrame float)) : result (DataFrame float) :=
  match objs with
  | [] => Raise (ValueError "No objects to concatenate")
  | _ =>
      let n := max_list (map nrows objs) in
      Ok (mkFrame n (flat_map (fun df => map (fun c => (c.1, reindex n c.2)) (cols df)) objs))
  end.

(** [d[key]] on the info record *)
Definition info_getitem (d : info) (key : string) : result info_val :=
  match d !! key with
  | Some v => Ok v
  | None => Raise (KeyError key)
  end.

Definition ecg_process (C : collaborators)
    (ecg_signal : list float) (sampling_rate : Z) (method : string)
    : M (list stage) (DataFrame float * info) :=
  (ecg_signal <- call Sanitize (signal_sanitize C ecg_signal) ;;
   ecg_cleaned <- call Clean (ecg_clean C ecg_signal sampling_rate method) ;;
   pk <- call Peaks (ecg_peaks C ecg_cleaned sampling_rate method true) ;;
   let '(instant_peaks, rpeaks) := pk in
   rate <- call Rate (signal_rate C rpeaks sampling_rate (length ecg_cleaned)) ;;
   r <- lift (info_getitem rpeaks "ECG_R_Peaks") ;;
   quality <- call Quality (ecg_quality C ecg_cleaned r sampling_rate) ;;
   signals <- lift (pd_DataFrame
                      [("ECG_Raw", ecg_signal); ("ECG_Clean", ecg_cleaned);
                       ("ECG_Rate", rate); ("ECG_Quality", quality)]) ;;
   dl <- call Delineate (ecg_delineate C ecg_cleaned rpeaks sampling_rate) ;;
   let '(delineate_signal, delineate_info) := dl in
   cardiac_phase <- call Phase (ecg_phase C ecg_cleaned rpeaks delineate_info) ;;
   signals <- lift (pd_concat_axis1
                      [signals; instant_peaks; delineate_signal; cardiac_phase]) ;;
   let info := <["sampling_rate" := IntVal sampling_rate]> rpeaks in
   ret (signals, info))%py.

(** The primary table of line 101. *)
Definition primary (ecg_signal ecg_cleaned rate quality : list float)
    : list (string * list float) :=
  [("ECG_Raw", ecg_signal); ("ECG_Clean", ecg_cleaned);
   ("ECG_Rate", rate); ("ECG_Quality", quality)].

(** What the stages hand back in one run of the pipeline. *)
Record stage_outputs := mkOutputs {
  out_signal : list float;
  out_cleaned : list float;
  out_peaks : DataFrame float;
  out_rpeaks : info;
  out_rate : list float;
  out_r_peaks : info_val;
  out_quality : list float;
  out_delineate : DataFrame float;
  out_delineate_info : info;
  out_phase : DataFrame float
}.

(** Every stage returns (none raises), each on the arguments the
    pipeline gives it. *)
Definition stages_return (C : collaborators)
    (raw : list float) (sampling_rate : Z) (method : string) (o : stage_outputs) : Prop :=
  signal_sanitize C raw = Ok (out_signal o)
  /\ ecg_clean C (out_signal o) sampling_rate method = Ok (out_cleaned o)
  /\ ecg_peaks C (out_cleaned o) sampling_rate method true = Ok (out_peaks o, out_rpeaks o)
  /\ signal_rate C (out_rpeaks o) sampling_rate (length (out_cleaned o)) = Ok (out_rate o)
  /\ out_rpeaks o !! "ECG_R_Peaks" = Some (out_r_peaks o)
  /\ ecg_quality C (out_cleaned o) (out_r_peaks o) sampling_rate = Ok (out_quality o)
  /\ ecg_delineate C (out_cleaned o) (out_rpeaks o) sampling_rate
       = Ok (out_delineate o, out_delineate_info o)
  /\ ecg_phase C (out_cleaned o) (out_rpeaks o) (out_delineate_info o) = Ok (out_phase o).

(** The cleaned, rate and quality sequences are as long as the sanitized
    signal. *)
Definition primary_lengths (o : stage_outputs) : Prop :=
  length (out_cleaned o) = length (out_signal o)
  /\ length (out_rate o) = length (out_signal o)
  /\ length (out_quality o) = length (out_signal o).

(** A stage's table has one row per sample of the sanitized signal. *)
Definition aligned (n : nat) (df : DataFrame float) : Prop :=
  nrows df = n /\ wf_frame df.

(** The length contract of the collaborators. *)
Definition length_contract (o : stage_outputs) : Prop :=
  primary_lengths o
  /\ aligned (length (out_signal o)) (out_peaks o)
  /\ aligned (length (out_signal o)) (out_delineate o)
  /\ aligned (length (out_signal o)) (out_phase o).

(** The columns the stages emit, in merge order. *)
Definition emitted (o : stage_outputs) : list (string * list float) :=
  primary (out_signal o) (out_cleaned o) (out_rate o) (out_quality o)
    ++ cols (out_peaks o) ++ cols (out_delineate o) ++ cols (out_phase o).

Definition all_stages : list stage :=
  [Sanitize; Clean; Peaks; Rate; Quality; Delineate; Phase].

(** A computation only ever adds to the trace. *)
Definition extends {A} (m : M (list stage) A) : Prop :=
  forall trace, exists rest, (m trace).2 = trace ++ rest.

End ECG.

(** ** Concrete tables and stand-in collaborators *)

Module Samples.
Import PPG ECG.

Definition num (z : Z) : cell := Flt (Num (inject_Z z)).

(** A variability engine that reports one more metric once the recording
    has at least three events, as the detrended-fluctuation metrics do. *)
Definition hrv_stub (peaks : gmap string (list nat)) (sampling_rate : Z)
    : result (DataFrame float) :=
  match peaks !! "PPG_Peaks" with
  | None => Raise (KeyError "PPG_Peaks")
  | Some idx =>
      Ok (mkFrame 1
            (("HRV_MeanNN", [Num (inject_Z (Z.of_nat (length idx)))]) ::
             if (3 <=? length idx)%nat
             then [("HRV_DFA_alpha2", [Num (inject_Z sampling_rate)])]
             else []))
  end.

Definition rate_samples : list cell := [num 60; num 60; num 60; num 80; num 80].

Definition long_table : DataFrame cell :=
  mkFrame 5 [("PPG_Rate", rate_samples);
             ("PPG_Peaks", [num 1; num 0; num 1; num 0; num 1])].

Definition short_table : DataFrame cell :=
  mkFrame 3 [("PPG_Rate", [num 70; num 70; num 70]);
             ("PPG_Peaks", [num 0; num 1; num 0])].

Definition smoothed_rate_table : DataFrame cell :=
  mkFrame 3 [("PPG_Rate_Smoothed", [num 70; num 70; num 70]);
             ("PPG_Peaks", [num 0; num 1; num 0])].

Definition renamed_peaks_table : DataFrame cell :=
  mkFrame 3 [("PPG_Rate", [num 70; num 70; num 70]);
             ("PPG_Peaks_Clean", [num 0; num 1; num 0])].

(** An epoch: a well-formed table with its label column. *)
Definition epoch (label : string) : DataFrame cell :=
  mkFrame 3 [("PPG_Rate", [num 70; num 70; num 70]);
             ("PPG_Peaks", [num 0; num 1; num 0]);
             ("Label", [Txt label; Txt label; Txt label])].

(** The same epoch without its events column. *)
Definition epoch_no_peaks (label : string) : DataFrame cell :=
  mkFrame 3 [("PPG_Rate", [num 70; num 70; num 70]);
             ("Label", [Txt label; Txt label; Txt label])].

Definition zeros (n : nat) : list float := replicate n (Num 0%Q).
Definition ones (n : nat) : list float := replicate n (Num 1%Q).

(** Stand-in stages that ignore the sampling rate.  The phase stage
    returns [drop] rows fewer than it was given and names its column
    [phase_name]. *)
Definition stub (drop : nat) (phase_name : string) : collaborators :=
  {| signal_sanitize s := Ok s;
     ecg_clean s _ _ := Ok s;
     ecg_peaks c _ _ _ :=
       Ok (mkFrame (length c) [("ECG_R_Peaks", zeros (length c))],
           {["ECG_R_Peaks" := Indices []]});
     signal_rate _ _ n := Ok (replicate n NaN);
     ecg_quality c _ _ := Ok (zeros (length c));
     ecg_delineate c _ _ :=
       Ok (mkFrame (length c) [("ECG_P_Peaks", zeros (length c))], ∅);
     ecg_phase c _ _ :=
       Ok (mkFrame (length c - drop) [(phase_name, ones (length c - drop))]) |}.

Definition raw3 : list float := [Num 1%Q; Num 2%Q; Num 3%Q].

(** What the stand-in stages return on [raw3]. *)
Definition stub_outputs (drop : nat) (phase_name : string) : stage_outputs :=
  {| out_signal := raw3;
     out_cleaned := raw3;
     out_peaks := mkFrame 3 [("ECG_R_Peaks", zeros 3)];
     out_rpeaks := {["ECG_R_Peaks" := Indices []]};
     out_rate := replicate 3 NaN;
     out_r_peaks := Indices [];
     out_quality := zeros 3;
     out_delineate := mkFrame 3 [("ECG_P_Peaks", zeros 3)];
     out_delineate_info := ∅;
     out_phase := mkFrame (3 - drop) [(phase_name, ones (3 - drop))] |}.


(** The exception a stand-in raises when told to fail. *)
Definition boom : exn := OtherError "RuntimeError" "stage failed".

(** The stand-in stages, with the phase stage raising. *)
Definition stub_phase_fails : collaborators :=
  {| signal_sanitize := signal_sanitize (stub 0 "ECG_Phase_Atrial");
     ecg_clean := ecg_clean (stub 0 "ECG_Phase_Atrial");
     ecg_peaks := ecg_peaks (stub 0 "ECG_Phase_Atrial");
     signal_rate := signal_rate (stub 0 "ECG_Phase_Atrial");
     ecg_quality := ecg_quality (stub 0 "ECG_Phase_Atrial");
     ecg_delineate := ecg_delineate (stub 0 "ECG_Phase_Atrial");
     ecg_phase _ _ _ := Raise boom |}.

(** The stand-in stages, with a peak detector whose record lacks the
    [ECG_R_Peaks] entry. *)
Definition stub_no_r_peaks : collaborators :=
  {| signal_sanitize := signal_sanitize (stub 0 "ECG_Phase_Atrial");
     ecg_clean := ecg_clean (stub 0 "ECG_Phase_Atrial");
     ecg_peaks c _ _ _ :=
       Ok (mkFrame (length c) [("ECG_R_Peaks", zeros (length c))],
           {["method" := TextVal "neurokit"]});
     signal_rate := signal_rate (stub 0 "ECG_Phase_Atrial");
     ecg_quality := ecg_quality (stub 0 "ECG_Phase_Atrial");
     ecg_delineate := ecg_delineate (stub 0 "ECG_Phase_Atrial");
     ecg_phase := ecg_phase (stub 0 "ECG_Phase_Atrial") |}.

(** The stand-in stages, with a peak detector that refuses to run without
    artifact correction. *)
Definition stub_needs_correction : collaborators :=
  {| signal_sanitize := signal_sanitize (stub 0 "ECG_Phase_Atrial");
     ecg_clean := ecg_clean (stub 0 "ECG_Phase_Atrial");
     ecg_peaks c sr m correct_artifacts :=
       if correct_artifacts then ecg_peaks (stub 0 "ECG_Phase_Atrial") c sr m true
       else Raise boom;
     signal_rate := signal_rate (stub 0 "ECG_Phase_Atrial");
     ecg_quality := ecg_quality (stub 0 "ECG_Phase_Atrial");
     ecg_delineate := ecg_delineate (stub 0 "ECG_Phase_Atrial");
     ecg_phase := ecg_phase (stub 0 "ECG_Phase_Atrial") |}.

(** A variability engine that always raises. *)
Definition hrv_fails (peaks : gmap string (list nat)) (sampling_rate : Z)
    : result (DataFrame float) :=
  Raise boom.

(** A variability engine that raises when the recording has no event. *)
Definition hrv_picky (peaks : gmap string (list nat)) (sampling_rate : Z)
    : result (DataFrame float) :=
  match peaks !! "PPG_Peaks" with
  | Some (_ :: _) => hrv_stub peaks sampling_rate
  | _ => Raise boom
  end.

(** An epoch without a single event. *)
Definition quiet_epoch (label : string) : DataFrame cell :=
  mkFrame 3 [("PPG_Rate", [num 70; num 70; num 70]);
             ("PPG_Peaks", [num 0; num 0; num 0]);
             ("Label", [Txt label; Txt label; Txt label])].

(** An epoch with a second column matching the rate pattern. *)
Definition epoch_two_rates (label : string) : DataFrame cell :=
  mkFrame 3 [("PPG_Rate", [num 70; num 70; num 70]);
             ("PPG_Rate_Raw", [num 71; num 69; num 70]);
             ("PPG_Peaks", [num 0; num 1; num 0]);
             ("Label", [Txt label; Txt label; Txt label])].

(** A table without label column and without rate column. *)
Definition unlabelled_table : DataFrame cell :=
  mkFrame 3 [("PPG_Peaks", [num 0; num 1; num 0])].

(** An events column that is not a clean zero-one mask. *)
Definition rough_mask_table : DataFrame cell :=
  mkFrame 4 [("PPG_Rate", [num 70; num 70; num 70; num 70]);
             ("PPG_Peaks", [num 0; num 2; Flt NaN; num 0])].

End Samples.

(** * Properties *)

Import PPG ECG.

(** ** Strings, frames and arrays *)

Lemma prefix_refl (s : string) : String.prefix s s = true.
Proof.
  induction s as [|a s IH]; simpl; [done|].
  destruct (Ascii.ascii_dec a a); [done | congruence].
Qed.

Lemma contains_refl (s : string) : contains s s = true.
Proof. destruct s; simpl; [done|]. rewrite prefix_refl. by destruct (Ascii.ascii_dec a a). Qed.

Lemma prefix_app (pat b : string) : String.prefix pat (pat +:+ b) = true.
Proof.
  induction pat as [|p pat IH]; simpl; [by destruct b|].
  destruct (Ascii.ascii_dec p p); [done | congruence].
Qed.

Lemma prefix_inv (pat t : string) :
  String.prefix pat t = true -> exists b, t = pat +:+ b.
Proof.
  revert t. induction pat as [|p pat IH]; intros t H.
  - by exists t.
  - destruct t as [|c t]; simpl in H; [done|].
    destruct (Ascii.ascii_dec p c) as [->|]; [|done].
    destruct (IH t H) as [b ->]. by exists b.
Qed.

Lemma contains_cons (pat : string) (c : Ascii.ascii) (s : string) :
  contains pat (String c s) = String.prefix pat (String c s) || contains pat s.
Proof. reflexivity. Qed.

Lemma contains_prefix (pat s : string) :
  String.prefix pat s = true -> contains pat s = true.
Proof.
  intros H. destruct s as [|c s].
  - by destruct pat.
  - by rewrite contains_cons, H.
Qed.

(** [contains] is substring containment. *)
Lemma contains_spec (pat s : string) :
  contains pat s = true <-> exists a b, s = a +:+ pat +:+ b.
Proof.
  split.
  - induction s as [|c s IH]; intros H.
    + simpl in H. rewrite orb_false_r in H. destruct pat; [|done]. by exists "", "".
    + rewrite contains_cons in H. apply orb_true_iff in H as [H|H].
      * apply prefix_inv in H as [b H]. by exists "", b.
      * destruct (IH H) as (a & b & ->). by exists (String c a), b.
  - intros (a & b & ->). induction a as [|c a IH].
    + change ("" +:+ pat +:+ b) with (pat +:+ b).
      apply contains_prefix, prefix_app.
    + change (String c a +:+ pat +:+ b) with (String c (a +:+ pat +:+ b)).
      rewrite contains_cons. apply orb_true_iff. by right.
Qed.

Lemma getitem_values_missing {A} (df : DataFrame A) (key : string) :
  key ∉ columns df -> getitem_values df key = Raise (KeyError key).
Proof.
  unfold getitem_values, columns. intros Hk.
  replace (filter (fun c : string * list A => c.1 = key) (cols df)) with (@nil (string * list A)); [done|].
  symmetry. induction (cols df) as [|c l IH]; [done|].
  rewrite filter_cons. rewrite fmap_cons, not_elem_of_cons in Hk.
  destruct Hk as [Hne Hk]. destruct (decide (c.1 = key)); [congruence | auto].
Qed.

Lemma getitem_values_present {A} (df : DataFrame A) (key : string) :
  key ∈ columns df -> exists a, getitem_values df key = Ok a.
Proof.
  unfold getitem_values, columns. intros Hk.
  destruct (filter (fun c : string * list A => c.1 = key) (cols df)) as [|c [|c' l]] eqn:E; eauto.
  exfalso. apply list_elem_of_fmap in Hk as (c & -> & Hc).
  assert (c ∈ filter (fun c0 : string * list A => c0.1 = c.1) (cols df)) as Hin
    by (by apply list_elem_of_filter).
  rewrite E in Hin. by apply not_elem_of_nil in Hin.
Qed.

(** ** Schema checks of the aggregator *)

(** C5. In single-table mode a table whose number of columns matching the
    rate pattern is not one (none, or several) is rejected: the call raises
    the error whose message names the required [`PPG_Rate`] column, returns
    no summary row and leaves the state as it was. *)
Theorem single_table_requires_one_rate_column
    (hrv : gmap string (list nat) -> Z -> result (DataFrame float))
    (data : DataFrame cell) (sampling_rate : Z) (st : defaults) :
  length (rate_cols data) <> 1 ->
  ppg_intervalrelated hrv (Table data) sampling_rate st
    = (Raise (ValueError rate_msg), st)
  /\ contains "`PPG_Rate`" rate_msg = true.
Proof.
  intros Hn. split; [|reflexivity].
  unfold ppg_intervalrelated. fold (rate_cols data).
  destruct (Nat.eqb_spec (length (rate_cols data)) 1); [contradiction | reflexivity].
Qed.

(** ** The two helpers, run on a state *)

Section Runs.

Variable hrv : gmap string (list nat) -> Z -> result (DataFrame float).

Lemma formatinput_run (data : DataFrame cell) (output : option dict) (st : defaults) :
  _ppg_intervalrelated_formatinput data output st =
    match rate_cols data with
    | [] => (Raise (ValueError rate_msg), st)
    | _ :: _ =>
        match getitem_values data "PPG_Rate" with
        | inl e => (Raise e, st)
        | inr a =>
            match np_mean a with
            | inl e => (Raise e, st)
            | inr m =>
                match output with
                | Some out => (Ok (<["PPG_Rate_Mean" := Scalar (Flt m)]> out), st)
                | None =>
                    let out := <["PPG_Rate_Mean" := Scalar (Flt m)]> (formatinput_output st) in
                    (Ok out, mkDefaults out (hrv_output st))
                end
            end
        end
    end.
Proof.
  unfold _ppg_intervalrelated_formatinput. fold (rate_cols data).
  destruct (rate_cols data); [reflexivity|].
  change (length (s :: l) =? 0)%nat with false. cbv iota.
  cbv beta iota delta [bind get lift put ret].
  destruct (getitem_values data "PPG_Rate") as [e|a]; [reflexivity|].
  destruct (np_mean a) as [e|m]; [reflexivity|].
  destruct output; reflexivity.
Qed.

Lemma hrv_run (data : DataFrame cell) (sampling_rate : Z)
    (output : option dict) (st : defaults) :
  _ppg_intervalrelated_hrv hrv data sampling_rate output st =
    match peaks_cols data with
    | [] => (Raise (ValueError peaks_msg), st)
    | _ :: _ =>
        match peaks_indices data with
        | inl e => (Raise e, st)
        | inr idx =>
            match hrv {["PPG_Peaks" := idx]} sampling_rate with
            | inl e => (Raise e, st)
            | inr results =>
                match output with
                | Some out => (store_columns results out, st)
                | None =>
                    match store_columns results (hrv_output st) with
                    | inl e => (Raise e, st)
                    | inr out => (Ok out, mkDefaults (formatinput_output st) out)
                    end
                end
            end
        end
    end.
Proof.
  unfold _ppg_intervalrelated_hrv. fold (peaks_cols data).
  destruct (peaks_cols data); [reflexivity|].
  change (length (s :: l) =? 0)%nat with false. cbv iota.
  cbv beta iota delta [bind get lift put ret].
  destruct (peaks_indices data) as [e|idx]; [reflexivity|].
  destruct (hrv _ sampling_rate) as [e|results]; [reflexivity|].
  destruct output as [out|]; [reflexivity|].
  destruct (store_columns results (hrv_output st)); reflexivity.
Qed.

Lemma epochs_run (data : list (string * DataFrame cell)) (sampling_rate : Z) (st : defaults) :
  ppg_intervalrelated hrv (Epochs data) sampling_rate st =
    match for_each data ∅ (epoch_step hrv sampling_rate) st with
    | (inl e, st') => (Raise e, st')
    | (inr rows, st') => (Ok (SummaryRows rows), st')
    end.
Proof.
  unfold ppg_intervalrelated, bind.
  by destruct (for_each data ∅ (epoch_step hrv sampling_rate) st) as [[e|rows] st'].
Qed.

End Runs.

Lemma for_each_app {S A B} (pre post : list A) (acc : B) (body : B -> A -> M S B) (s : S) :
  for_each (pre ++ post) acc body s =
    match for_each pre acc body s with
    | (inl e, s') => (inl e, s')
    | (inr acc', s') => for_each post acc' body s'
    end.
Proof.
  revert acc s. induction pre as [|x pre IH]; intros acc s; [reflexivity|].
  simpl. unfold bind. destruct (body acc x s) as [[e|acc'] s']; [reflexivity | apply IH].
Qed.

Section Schema.

Variable hrv : gmap string (list nat) -> Z -> result (DataFrame float).

Lemma table_run (data : DataFrame cell) (sampling_rate : Z) (st : defaults) :
  length (rate_cols data) = 1 ->
  ppg_intervalrelated hrv (Table data) sampling_rate st =
    match _ppg_intervalrelated_formatinput data None st with
    | (inl e, st1) => (Raise e, st1)
    | (inr o1, st1) =>
        match _ppg_intervalrelated_hrv hrv data sampling_rate None st1 with
        | (inl e, st2) => (Raise e, st2)
        | (inr o2, st2) => (Ok (SummaryRow (update (update ∅ o1) o2)), st2)
        end
    end.
Proof.
  intros H1. unfold ppg_intervalrelated. fold (rate_cols data). rewrite H1.
  cbn [Nat.eqb]. unfold bind.
  destruct (_ppg_intervalrelated_formatinput data None st) as [[e|o1] st1]; [reflexivity|].
  destruct (_ppg_intervalrelated_hrv hrv data sampling_rate None st1) as [[e|o2] st2];
    reflexivity.
Qed.

(** A single column matches the rate pattern but none is named
    [PPG_Rate]: the schema check passes and the lookup raises. *)
Lemma rate_lookup_key_error (data : DataFrame cell) (sampling_rate : Z) (st : defaults) :
  length (rate_cols data) = 1 ->
  "PPG_Rate" ∉ columns data ->
  ppg_intervalrelated hrv (Table data) sampling_rate st = (Raise (KeyError "PPG_Rate"), st).
Proof.
  intros H1 Hk. rewrite table_run, formatinput_run by done.
  destruct (rate_cols data); [done|].
  by rewrite getitem_values_missing.
Qed.

(** The rate column is in order, some column matches the events pattern
    but none is named [PPG_Peaks]. *)
Lemma peaks_lookup_key_error (data : DataFrame cell) (sampling_rate : Z) (st : defaults)
    (a : ndarray cell) (m : float) :
  length (rate_cols data) = 1 ->
  getitem_values data "PPG_Rate" = Ok a ->
  np_mean a = Ok m ->
  peaks_cols data <> [] ->
  "PPG_Peaks" ∉ columns data ->
  (ppg_intervalrelated hrv (Table data) sampling_rate st).1 = Raise (KeyError "PPG_Peaks").
Proof.
  intros H1 Ha Hm Hp Hk. rewrite table_run, formatinput_run by done.
  destruct (rate_cols data); [done|]. rewrite Ha, Hm. cbv beta iota zeta.
  rewrite hrv_run. destruct (peaks_cols data); [done|].
  unfold peaks_indices. by rewrite getitem_values_missing.
Qed.

Lemma epoch_step_run (sampling_rate : Z) (intervals : gmap string dict)
    (index : string) (df : DataFrame cell) (st : defaults) :
  epoch_step hrv sampling_rate intervals (index, df) st =
    match label_iloc0 df with
    | inl e => (Raise e, st)
    | inr label =>
        match _ppg_intervalrelated_formatinput df (Some (<["Label" := label]> ∅)) st with
        | (inl e, st1) => (Raise e, st1)
        | (inr row, st1) =>
            match _ppg_intervalrelated_hrv hrv df sampling_rate (Some row) st1 with
            | (inl e, st2) => (Raise e, st2)
            | (inr row', st2) => (Ok (<[index := row']> intervals), st2)
            end
        end
    end.
Proof.
  unfold epoch_step, bind, lift, ret.
  destruct (label_iloc0 df) as [e|label]; [reflexivity|].
  destruct (_ppg_intervalrelated_formatinput df _ st) as [[e|row] st1]; [reflexivity|].
  destruct (_ppg_intervalrelated_hrv hrv df sampling_rate _ st1) as [[e|row'] st2];
    reflexivity.
Qed.

(** Collection mode passes fresh dictionaries: the defaults stay as they are. *)
Lemma epoch_step_state (sampling_rate : Z) (intervals : gmap string dict)
    (item : string * DataFrame cell) (st : defaults) :
  (epoch_step hrv sampling_rate intervals item st).2 = st.
Proof.
  destruct item as [index df]. rewrite epoch_step_run.
  destruct (label_iloc0 df) as [e|label]; [reflexivity|].
  rewrite formatinput_run.
  destruct (rate_cols df); [reflexivity|].
  destruct (getitem_values df "PPG_Rate") as [e|a]; [reflexivity|].
  destruct (np_mean a) as [e|m]; [reflexivity|].
  rewrite hrv_run.
  destruct (peaks_cols df); [reflexivity|].
  destruct (peaks_indices df) as [e|idx]; [reflexivity|].
  destruct (hrv _ sampling_rate) as [e|results]; [reflexivity|].
  destruct (store_columns results _); reflexivity.
Qed.

Lemma epochs_loop_state (data : list (string * DataFrame cell)) (sampling_rate : Z)
    (intervals : gmap string dict) (st : defaults) :
  (for_each data intervals (epoch_step hrv sampling_rate) st).2 = st.
Proof.
  revert intervals. induction data as [|item data IH]; intros intervals; [reflexivity|].
  simpl. unfold bind.
  pose proof (epoch_step_state sampling_rate intervals item st) as Hs.
  destruct (epoch_step hrv sampling_rate intervals item st) as [[e|acc] st1];
    simpl in Hs; subst st1; [reflexivity | apply IH].
Qed.

(** A label whose table lacks a required column makes its iteration raise. *)
Lemma epoch_step_missing (sampling_rate : Z) (intervals : gmap string dict)
    (index : string) (df : DataFrame cell) (st : defaults) :
  rate_cols df = [] \/ peaks_cols df = [] ->
  exists e, epoch_step hrv sampling_rate intervals (index, df) st = (Raise e, st).
Proof.
  intros Hmiss. rewrite epoch_step_run.
  destruct (label_iloc0 df) as [e|label]; [by eexists|].
  rewrite formatinput_run.
  destruct (rate_cols df) eqn:Er; [by eexists|].
  destruct Hmiss as [|Hp]; [done|].
  destruct (getitem_values df "PPG_Rate") as [e|a]; [by eexists|].
  destruct (np_mean a) as [e|m]; [by eexists|].
  rewrite hrv_run, Hp. by eexists.
Qed.

Lemma epochs_loop_missing (data : list (string * DataFrame cell)) (sampling_rate : Z)
    (intervals : gmap string dict) (st : defaults) (index : string) (df : DataFrame cell) :
  (index, df) ∈ data ->
  rate_cols df = [] \/ peaks_cols df = [] ->
  exists e, for_each data intervals (epoch_step hrv sampling_rate) st = (Raise e, st).
Proof.
  intros Hin Hmiss. revert intervals.
  induction data as [|item data IH]; intros intervals.
  - by apply not_elem_of_nil in Hin.
  - simpl. unfold bind.
    pose proof (epoch_step_state sampling_rate intervals item st) as Hs.
    destruct (epoch_step hrv sampling_rate intervals item st) as [[e|acc] st1] eqn:E;
      simpl in Hs; subst st1; [by eexists|].
    apply elem_of_cons in Hin as [<-|Hin]; [|by apply IH].
    destruct (epoch_step_missing sampling_rate intervals index df st Hmiss) as [e He].
    congruence.
Qed.

End Schema.

Lemma single_table_requires_one_rate_column_witness :
  ppg_intervalrelated Samples.hrv_stub
    (Table (mkFrame 2 [("PPG_Peaks", [Samples.num 0; Samples.num 1])])) 100 fresh
  = (Raise (ValueError rate_msg), fresh)
  /\ ppg_intervalrelated Samples.hrv_stub
       (Table (mkFrame 0 [("PPG_Rate", []); ("PPG_Rate_Raw", [])])) 100 fresh
     = (Raise (ValueError rate_msg), fresh).
Proof.
  split.
  - apply (single_table_requires_one_rate_column Samples.hrv_stub
             (mkFrame 2 [("PPG_Peaks", [Samples.num 0; Samples.num 1])]) 100 fresh).
    vm_compute. lia.
  - apply (single_table_requires_one_rate_column Samples.hrv_stub
             (mkFrame 0 [("PPG_Rate", []); ("PPG_Rate_Raw", [])]) 100 fresh).
    vm_compute. lia.
Defined.

(** C10. The schema checks match by substring, the data access by exact
    name.  A table with exactly one column matching the rate pattern, none
    of them named [PPG_Rate] (say [PPG_Rate_Smoothed]), passes the check
    and then fails with the key-lookup error for [PPG_Rate]; a table whose
    rate column is in order and whose only columns matching the events
    pattern bear other names (say [PPG_Peaks_Clean]) fails with the
    key-lookup error for [PPG_Peaks]. *)
Theorem schema_substring_lookup_exact
    (hrv : gmap string (list nat) -> Z -> result (DataFrame float))
    (data : DataFrame cell) (sampling_rate : Z) (st : defaults) :
  length (rate_cols data) = 1 ->
  ("PPG_Rate" ∉ columns data ->
   ppg_intervalrelated hrv (Table data) sampling_rate st
     = (Raise (KeyError "PPG_Rate"), st))
  /\ (forall a m,
        getitem_values data "PPG_Rate" = Ok a ->
        np_mean a = Ok m ->
        peaks_cols data <> [] ->
        "PPG_Peaks" ∉ columns data ->
        (ppg_intervalrelated hrv (Table data) sampling_rate st).1
          = Raise (KeyError "PPG_Peaks")).
Proof.
  intros H1. split.
  - intros Hk. by apply rate_lookup_key_error.
  - intros a m Ha Hm Hp Hk. by eapply peaks_lookup_key_error.
Qed.

Lemma schema_substring_lookup_exact_witness :
  rate_cols Samples.smoothed_rate_table = ["PPG_Rate_Smoothed"]
  /\ ppg_intervalrelated Samples.hrv_stub (Table Samples.smoothed_rate_table) 100 fresh
     = (Raise (KeyError "PPG_Rate"), fresh)
  /\ peaks_cols Samples.renamed_peaks_table = ["PPG_Peaks_Clean"]
  /\ (ppg_intervalrelated Samples.hrv_stub (Table Samples.renamed_peaks_table) 100 fresh).1
     = Raise (KeyError "PPG_Peaks").
Proof.
  split; [reflexivity|]. split.
  - apply (schema_substring_lookup_exact Samples.hrv_stub Samples.smoothed_rate_table 100 fresh);
      [reflexivity|].
    apply (bool_decide_unpack _). vm_compute. exact I.
  - split; [reflexivity|].
    eapply (proj2 (schema_substring_lookup_exact Samples.hrv_stub
                     Samples.renamed_peaks_table 100 fresh eq_refl)).
    + reflexivity.
    + reflexivity.
    + discriminate.
    + apply (bool_decide_unpack _). vm_compute. exact I.
Defined.

(** C6, as the code has it.  In collection mode a label whose table has no
    column matching the rate pattern, or none matching the events pattern,
    makes the whole call raise: no row is returned for any label (and the
    state is untouched).  When the labels before it aggregate without error
    and its [Label] field can be read, the error is the [ValueError] whose
    fixed message names the missing pattern; the message is the same
    whatever the label. *)
Theorem collection_missing_column_aborts
    (hrv : gmap string (list nat) -> Z -> result (DataFrame float))
    (data : list (string * DataFrame cell)) (sampling_rate : Z) (st : defaults)
    (index : string) (df : DataFrame cell) :
  (index, df) ∈ data ->
  rate_cols df = [] \/ peaks_cols df = [] ->
  (exists e, ppg_intervalrelated hrv (Epochs data) sampling_rate st = (Raise e, st))
  /\ (forall pre post rows label,
        data = pre ++ (index, df) :: post ->
        ppg_intervalrelated hrv (Epochs pre) sampling_rate st = (Ok (SummaryRows rows), st) ->
        label_iloc0 df = Ok label ->
        (rate_cols df = [] ->
         ppg_intervalrelated hrv (Epochs data) sampling_rate st
           = (Raise (ValueError rate_msg), st))
        /\ (forall a m,
              getitem_values df "PPG_Rate" = Ok a ->
              np_mean a = Ok m ->
              peaks_cols df = [] ->
              ppg_intervalrelated hrv (Epochs data) sampling_rate st
                = (Raise (ValueError peaks_msg), st))).
Proof.
  intros Hin Hmiss. split.
  - rewrite epochs_run.
    destruct (epochs_loop_missing hrv data sampling_rate ∅ st index df Hin Hmiss) as [e ->].
    by exists e.
  - intros pre post rows label -> Hpre Hlabel.
    rewrite epochs_run in Hpre.
    rewrite epochs_run, for_each_app.
    destruct (for_each pre ∅ (epoch_step hrv sampling_rate) st) as [[e|acc] st1];
      [discriminate|].
    injection Hpre as _ ->.
    cbn [for_each]. unfold bind. rewrite epoch_step_run, Hlabel, formatinput_run.
    split.
    + by intros ->.
    + intros a m Ha Hm Hp.
      destruct (rate_cols df) eqn:Er.
      * exfalso. unfold rate_cols in Er.
        assert ("PPG_Rate" ∈ filter (fun col => contains "PPG_Rate" col = true) (columns df)) as Hel.
        { apply list_elem_of_filter. split; [reflexivity|].
          destruct (decide ("PPG_Rate" ∈ columns df)) as [|Hn]; [done|].
          apply getitem_values_missing in Hn. congruence. }
        rewrite Er in Hel. by apply not_elem_of_nil in Hel.
      * rewrite Ha, Hm. cbv beta iota. by rewrite hrv_run, Hp.
Qed.

Lemma collection_missing_column_aborts_witness :
  ppg_intervalrelated Samples.hrv_stub
    (Epochs [("A", Samples.epoch "A"); ("B", Samples.epoch_no_peaks "B")]) 100 fresh
  = (Raise (ValueError peaks_msg), fresh).
Proof.
  eapply (proj2 (collection_missing_column_aborts Samples.hrv_stub
                   [("A", Samples.epoch "A"); ("B", Samples.epoch_no_peaks "B")]
                   100 fresh "B" (Samples.epoch_no_peaks "B")
                   ltac:(apply elem_of_cons; right; apply elem_of_cons; by left)
                   (or_intror eq_refl))
                [("A", Samples.epoch "A")] [] _ _ eq_refl).
  - vm_compute. reflexivity.
  - reflexivity.
  - reflexivity.
  - reflexivity.
  - reflexivity.
Defined.

(** C6 as stated fails: the error raised for a malformed label does not
    identify the label.  Whether the events column is missing under label
    [A] or under label [B], the very same error comes back, so nothing can
    recover the offending label from it; its message mentions neither. *)
Lemma collection_error_omits_label :
  let errA := (ppg_intervalrelated Samples.hrv_stub
                 (Epochs [("A", Samples.epoch_no_peaks "A"); ("B", Samples.epoch "B")])
                 100 fresh).1 in
  let errB := (ppg_intervalrelated Samples.hrv_stub
                 (Epochs [("A", Samples.epoch "A"); ("B", Samples.epoch_no_peaks "B")])
                 100 fresh).1 in
  errA = Raise (ValueError peaks_msg)
  /\ errB = errA
  /\ contains "A" peaks_msg = false
  /\ ~ (exists offender : result summary -> string, offender errA = "A" /\ offender errB = "B").
Proof.
  cbv zeta. split; [vm_compute; reflexivity|]. split; [vm_compute; reflexivity|].
  split; [reflexivity|].
  intros (offender & HA & HB).
  assert ((ppg_intervalrelated Samples.hrv_stub
             (Epochs [("A", Samples.epoch "A"); ("B", Samples.epoch_no_peaks "B")])
             100 fresh).1
          = (ppg_intervalrelated Samples.hrv_stub
               (Epochs [("A", Samples.epoch_no_peaks "A"); ("B", Samples.epoch "B")])
               100 fresh).1) as E by (vm_compute; reflexivity).
  rewrite E, HA in HB. discriminate HB.
Qed.

(** ** From the dense mask to the index sequence *)

Lemma truthy_binary (c : cell) :
  is_zero c || is_one c = true -> truthy c = is_one c.
Proof.
  destruct c as [[q| |negative]|s]; simpl; try discriminate.
  intros [H0|H1]%orb_true_iff.
  - rewrite H0. simpl. symmetry. apply not_true_is_false. intros H1.
    apply Qeq_bool_iff in H0, H1. rewrite H0 in H1. discriminate H1.
  - rewrite H1. destruct (Qeq_bool q 0) eqn:H0; [|reflexivity].
    apply Qeq_bool_iff in H0, H1. rewrite H0 in H1. discriminate H1.
Qed.

Lemma where_from_elem (i : nat) (xs : list cell) (j : nat) :
  j ∈ where_from i xs <->
  exists k c, j = i + k /\ xs !! k = Some c /\ truthy c = true.
Proof.
  revert i. induction xs as [|x xs IH]; intros i; simpl.
  - split; [by intros ?%not_elem_of_nil | by intros (k & c & _ & ? & _)].
  - destruct (truthy x) eqn:Hx.
    + rewrite elem_of_cons, IH. split.
      * intros [->|(k & c & -> & Hk & Hc)].
        -- exists 0, x. split; [lia | done].
        -- exists (S k), c. split; [lia | done].
      * intros ([|k] & c & -> & Hk & Hc).
        -- left. lia.
        -- right. exists k, c. split; [lia | done].
    + rewrite IH. split.
      * intros (k & c & -> & Hk & Hc). exists (S k), c. split; [lia | done].
      * intros ([|k] & c & -> & Hk & Hc).
        -- simpl in Hk. congruence.
        -- exists k, c. split; [lia | done].
Qed.

Lemma where_from_sorted (i : nat) (xs : list cell) :
  StronglySorted lt (where_from i xs).
Proof.
  revert i. induction xs as [|x xs IH]; intros i; simpl; [constructor|].
  destruct (truthy x); [|apply IH].
  constructor; [apply IH|].
  apply Forall_forall. intros j Hj.
  apply where_from_elem in Hj as (k & c & -> & _). lia.
Qed.

Lemma where_from_length (i : nat) (xs : list cell) :
  length (where_from i xs) = length (filter (fun c => truthy c = true) xs).
Proof.
  revert i. induction xs as [|x xs IH]; intros i; simpl; [reflexivity|].
  rewrite filter_cons. destruct (truthy x) eqn:Hx.
  - rewrite decide_True by done. simpl. by rewrite IH.
  - rewrite decide_False by done. apply IH.
Qed.

Lemma sorted_lt_NoDup (l : list nat) : StronglySorted lt l -> NoDup l.
Proof.
  induction 1 as [|x l Hs IH Hx]; constructor; [|done].
  intros Hin. rewrite Forall_forall in Hx. specialize (Hx x Hin). lia.
Qed.

Lemma filter_binary (mask : list cell) :
  binary_mask mask ->
  filter (fun c => truthy c = true) mask = filter (fun c => is_one c = true) mask.
Proof.
  induction 1 as [|c mask Hc _ IH]; [reflexivity|].
  rewrite !filter_cons, IH, (truthy_binary c Hc).
  destruct (decide (is_one c = true)); reflexivity.
Qed.

Lemma getitem_values_elem {A} (df : DataFrame A) (key : string) (a : ndarray A) :
  getitem_values df key = Ok a -> key ∈ columns df.
Proof.
  intros Ha. destruct (decide (key ∈ columns df)) as [|Hn]; [done|].
  apply getitem_values_missing in Hn. congruence.
Qed.

(** C9. The index sequence the aggregator hands to the variability engine
    for a binary events mask [PPG_Peaks] is the set of positions holding a
    one: as many indices as the mask has ones, an index is listed exactly
    when the mask holds a one there, and the sequence is strictly
    increasing, hence free of duplicates.  It is this sequence, under the
    key [PPG_Peaks], that the engine is called with. *)
Theorem peaks_mask_to_indices (data : DataFrame cell) (mask : list cell) :
  getitem_values data "PPG_Peaks" = Ok (Arr1 mask) ->
  binary_mask mask ->
  exists idx,
    peaks_indices data = Ok idx
    /\ length idx = length (filter (fun c => is_one c = true) mask)
    /\ (forall i, i ∈ idx <-> exists c, mask !! i = Some c /\ is_one c = true)
    /\ StronglySorted lt idx
    /\ NoDup idx
    /\ (forall hrv sampling_rate out st,
          _ppg_intervalrelated_hrv hrv data sampling_rate (Some out) st =
            (match hrv {["PPG_Peaks" := idx]} sampling_rate with
             | inl e => Raise e
             | inr results => store_columns results out
             end, st)).
Proof.
  intros Hget Hbin. exists (where_from 0 mask).
  assert (peaks_indices data = Ok (where_from 0 mask)) as Hidx
    by (unfold peaks_indices; by rewrite Hget).
  split; [done|].
  split; [by rewrite where_from_length, filter_binary|].
  split.
  { intros i. rewrite where_from_elem. unfold binary_mask in Hbin.
    rewrite Forall_forall in Hbin. split.
    - intros (k & c & -> & Hk & Hc). exists c. split; [done|].
      rewrite <- truthy_binary; [done|]. apply Hbin. by eapply list_elem_of_lookup_2.
    - intros (c & Hk & Hc). exists i, c. split; [done|]. split; [done|].
      rewrite truthy_binary; [done|]. apply Hbin. by eapply list_elem_of_lookup_2. }
  split; [apply where_from_sorted|].
  split; [apply sorted_lt_NoDup, where_from_sorted|].
  intros hrv sampling_rate out st. rewrite hrv_run, Hidx.
  destruct (peaks_cols data) eqn:Ep.
  - exfalso. apply getitem_values_elem in Hget.
    assert ("PPG_Peaks" ∈ peaks_cols data) as Hel
      by (apply list_elem_of_filter; split; [reflexivity | done]).
    rewrite Ep in Hel. by apply not_elem_of_nil in Hel.
  - by destruct (hrv _ sampling_rate).
Qed.

Lemma peaks_mask_to_indices_witness :
  exists idx, peaks_indices Samples.long_table = Ok idx /\ idx = [0; 2; 4].
Proof.
  destruct (peaks_mask_to_indices Samples.long_table
              [Samples.num 1; Samples.num 0; Samples.num 1; Samples.num 0; Samples.num 1]
              eq_refl) as (idx & Hidx & _).
  - repeat constructor.
  - exists idx. split; [exact Hidx|]. vm_compute in Hidx. congruence.
Defined.

(** ** The mean-rate feature *)







(** ** State shared between calls *)

(** C3 fails on the code.  The helpers' default [output={}] dictionaries
    live across calls in single-table mode.  After a call on a recording
    for which the engine reports a metric, a call on another recording,
    for which it does not, still returns that metric, with the value of
    the earlier call; the same second call made first returns a row
    without it.  Two calls on the same input thus differ. *)
Theorem default_output_leaks_between_calls :
  exists row1 st1 row2 st2 row2' st2',
    ppg_intervalrelated Samples.hrv_stub (Table Samples.long_table) 100 fresh
      = (Ok (SummaryRow row1), st1)
    /\ ppg_intervalrelated Samples.hrv_stub (Table Samples.short_table) 100 st1
       = (Ok (SummaryRow row2), st2)
    /\ ppg_intervalrelated Samples.hrv_stub (Table Samples.short_table) 100 fresh
       = (Ok (SummaryRow row2'), st2')
    /\ row2' !! "HRV_DFA_alpha2" = None
    /\ row2 !! "HRV_DFA_alpha2" = Some (Array (Arr1 [Num (inject_Z 100)]))
    /\ row2 !! "HRV_DFA_alpha2" = row1 !! "HRV_DFA_alpha2"
    /\ row2 <> row2'.
Proof.
  do 6 eexists.
  split; [vm_compute; reflexivity|].
  split; [vm_compute; reflexivity|].
  split; [vm_compute; reflexivity|].
  split; [vm_compute; reflexivity|].
  split; [vm_compute; reflexivity|].
  split; [vm_compute; reflexivity|].
  intros E. apply (f_equal (fun m : dict => m !! "HRV_DFA_alpha2")) in E.
  vm_compute in E. discriminate E.
Qed.

(** In collection mode every label gets its own dictionary: whatever the
    outcome, the defaults are as before the call. *)
Lemma collection_mode_keeps_defaults
    (hrv : gmap string (list nat) -> Z -> result (DataFrame float))
    (data : list (string * DataFrame cell)) (sampling_rate : Z) (st : defaults) :
  (ppg_intervalrelated hrv (Epochs data) sampling_rate st).2 = st.
Proof.
  rewrite epochs_run.
  pose proof (epochs_loop_state hrv data sampling_rate ∅ st) as Hs.
  by destruct (for_each data ∅ (epoch_step hrv sampling_rate) st) as [[e|rows] st'].
Qed.

(** ** The pipeline, run on a trace *)

Lemma pd_DataFrame_primary (s c r q : list float) :
  pd_DataFrame (primary s c r q) =
    if decide (length c = length s /\ length r = length s /\ length q = length s)
    then Ok (mkFrame (length s) (primary s c r q))
    else Raise (ValueError length_msg).
Proof.
  unfold pd_DataFrame, primary. cbn [forallb snd].
  destruct (Nat.eqb_spec (length c) (length s)) as [Hc|Hc];
    destruct (Nat.eqb_spec (length r) (length s)) as [Hr|Hr];
    destruct (Nat.eqb_spec (length q) (length s)) as [Hq|Hq];
    cbn [andb]; case_decide; try reflexivity; tauto.
Qed.

Lemma reindex_full (n : nat) (c : list float) : length c = n -> reindex n c = c.
Proof.
  intros <-. unfold reindex. by rewrite Nat.sub_diag, app_nil_r.
Qed.

Lemma map_reindex_full (n : nat) (l : list (string * list float)) :
  Forall (fun c => length c.2 = n) l ->
  map (fun col => (col.1, reindex n col.2)) l = l.
Proof.
  induction 1 as [|c l Hc _ IH]; [done|].
  cbn [map]. rewrite reindex_full by done. rewrite IH. by destruct c.
Qed.

(** The merge of line 112, on the primary table and the three stage tables. *)
Lemma pd_concat_axis1_four (a b c d : DataFrame float) :
  pd_concat_axis1 [a; b; c; d] =
    let n := max_list [nrows a; nrows b; nrows c; nrows d] in
    Ok (mkFrame n (map (fun col => (col.1, reindex n col.2))
                       (cols a ++ cols b ++ cols c ++ cols d))).
Proof.
  unfold pd_concat_axis1. cbn [flat_map map]. by rewrite app_nil_r, !map_app.
Qed.

Section Pipeline.

Variable C : collaborators.

(** The run when every stage returns: only the two pandas calls decide. *)
Lemma ecg_process_run (raw : list float) (sampling_rate : Z) (method : string)
    (o : stage_outputs) (trace : list stage) :
  stages_return C raw sampling_rate method o ->
  ecg_process C raw sampling_rate method trace =
    match pd_DataFrame (primary (out_signal o) (out_cleaned o) (out_rate o) (out_quality o)) with
    | inl e => (Raise e, trace ++ [Sanitize; Clean; Peaks; Rate; Quality])
    | inr signals =>
        (match pd_concat_axis1 [signals; out_peaks o; out_delineate o; out_phase o] with
         | inl e => Raise e
         | inr merged =>
             Ok (merged, <["sampling_rate" := IntVal sampling_rate]> (out_rpeaks o))
         end,
         trace ++ all_stages)
    end.
Proof.
  intros (Hs & Hc & Hp & Hr & Hk & Hq & Hd & Hph).
  unfold ecg_process, bind, call, lift, ret, info_getitem.
  rewrite Hs, Hc, Hp, Hr, Hk, Hq.
  change [("ECG_Raw", out_signal o); ("ECG_Clean", out_cleaned o);
          ("ECG_Rate", out_rate o); ("ECG_Quality", out_quality o)]
    with (primary (out_signal o) (out_cleaned o) (out_rate o) (out_quality o)).
  destruct (pd_DataFrame _) as [e|signals].
  - by rewrite <- !app_assoc.
  - rewrite Hd, Hph. rewrite <- !app_assoc.
    by destruct (pd_concat_axis1 _).
Qed.

(** When the primary sequences agree in length the call returns the
    merged table: every emitted column, reindexed to the longest table. *)
Lemma ecg_process_merged (raw : list float) (sampling_rate : Z) (method : string)
    (o : stage_outputs) (trace : list stage) :
  stages_return C raw sampling_rate method o ->
  primary_lengths o ->
  ecg_process C raw sampling_rate method trace =
    (let n := max_list [length (out_signal o); nrows (out_peaks o);
                        nrows (out_delineate o); nrows (out_phase o)] in
     Ok (mkFrame n (map (fun col => (col.1, reindex n col.2)) (emitted o)),
         <["sampling_rate" := IntVal sampling_rate]> (out_rpeaks o)),
     trace ++ all_stages).
Proof.
  intros Hret Hlen. rewrite (ecg_process_run _ _ _ o) by done.
  rewrite pd_DataFrame_primary, decide_True by done.
  by rewrite pd_concat_axis1_four.
Qed.

(** Under the length contract nothing is padded. *)
Lemma ecg_process_aligned (raw : list float) (sampling_rate : Z) (method : string)
    (o : stage_outputs) (trace : list stage) :
  stages_return C raw sampling_rate method o ->
  length_contract o ->
  ecg_process C raw sampling_rate method trace =
    (Ok (mkFrame (length (out_signal o)) (emitted o),
         <["sampling_rate" := IntVal sampling_rate]> (out_rpeaks o)),
     trace ++ all_stages)
  /\ Forall (fun c => length c.2 = length (out_signal o)) (emitted o).
Proof.
  intros Hret (Hlen & [Hn1 Hw1] & [Hn2 Hw2] & [Hn3 Hw3]).
  assert (Forall (fun c : string * list float => length c.2 = length (out_signal o))
            (emitted o)) as Hall.
  { unfold emitted, primary. destruct Hlen as (Hc & Hr & Hq).
    unfold wf_frame in *. rewrite Hn1 in Hw1. rewrite Hn2 in Hw2. rewrite Hn3 in Hw3.
    rewrite !Forall_app. repeat split; [|done..].
    repeat constructor; done. }
  split; [|done].
  rewrite (ecg_process_merged _ _ _ o) by done.
  rewrite Hn1, Hn2, Hn3. cbv zeta.
  replace (max_list _) with (length (out_signal o)) by (simpl; lia).
  by rewrite map_reindex_full.
Qed.

End Pipeline.

(** ** Length invariance *)

(** C1. When every collaborator returns and honours its length contract
    (sequences as long as the sanitized signal, tables with one row per
    sample), the pipeline returns a table all of whose columns have exactly
    that length [N]; the final column-wise merge leaves the row count at
    [N]. *)
Theorem length_invariance
    (C : collaborators) (raw : list float) (sampling_rate : Z) (method : string)
    (o : stage_outputs) :
  stages_return C raw sampling_rate method o ->
  length_contract o ->
  exists signals info,
    ecg_process C raw sampling_rate method [] = (Ok (signals, info), all_stages)
    /\ nrows signals = length (out_signal o)
    /\ wf_frame signals
    /\ Forall (fun c => length c.2 = length (out_signal o)) (cols signals).
Proof.
  intros Hret Hcontract.
  destruct (ecg_process_aligned C raw sampling_rate method o [] Hret Hcontract) as [Hrun Hall].
  eexists _, _. split; [exact Hrun|]. split; [reflexivity|]. split; exact Hall.
Qed.

Lemma length_invariance_witness :
  exists signals info,
    ecg_process (Samples.stub 0 "ECG_Phase_Atrial") Samples.raw3 1000 "neurokit" []
      = (Ok (signals, info), all_stages)
    /\ nrows signals = 3
    /\ wf_frame signals
    /\ Forall (fun c => length c.2 = 3) (cols signals).
Proof.
  apply (length_invariance (Samples.stub 0 "ECG_Phase_Atrial") Samples.raw3 1000 "neurokit"
           (Samples.stub_outputs 0 "ECG_Phase_Atrial")).
  - repeat split.
  - repeat split; repeat constructor.
Defined.

(** ** Mismatched lengths *)

(** C2 as stated fails: a phase stage returning one row fewer than the
    signal raises nothing.  Its column is merged, padded with NaN. *)
Lemma short_column_is_merged_silently :
  ~ (exists e,
       (ecg_process (Samples.stub 1 "ECG_Phase_Atrial") Samples.raw3 1000 "neurokit" []).1
         = Raise e)
  /\ exists signals info,
       ecg_process (Samples.stub 1 "ECG_Phase_Atrial") Samples.raw3 1000 "neurokit" []
         = (Ok (signals, info), all_stages)
       /\ nrows signals = 3
       /\ filter (fun c => c.1 = "ECG_Phase_Atrial") (cols signals)
          = [("ECG_Phase_Atrial", [Num 1%Q; Num 1%Q; NaN])].
Proof.
  split.
  - intros [e He]. vm_compute in He. discriminate He.
  - eexists _, _. split; [vm_compute; reflexivity|]. split; vm_compute; reflexivity.
Qed.

(** C2, as the code has it.  With every stage returning: if the cleaned,
    rate or quality sequence is not as long as the sanitized signal, the
    construction of the primary table raises pandas' [ValueError], whose
    fixed message names neither a stage nor a length, before delineation
    and phase assignment run; otherwise no error is raised whatever the
    row counts of the peaks, delineation and phase tables: the merge has
    as many rows as the longest of them and every shorter column is
    filled up with NaN. *)
Theorem length_mismatch_outcomes
    (C : collaborators) (raw : list float) (sampling_rate : Z) (method : string)
    (o : stage_outputs) :
  stages_return C raw sampling_rate method o ->
  (~ primary_lengths o ->
   ecg_process C raw sampling_rate method []
     = (Raise (ValueError length_msg), [Sanitize; Clean; Peaks; Rate; Quality]))
  /\ (primary_lengths o ->
      let n := max_list [length (out_signal o); nrows (out_peaks o);
                         nrows (out_delineate o); nrows (out_phase o)] in
      ecg_process C raw sampling_rate method []
        = (Ok (mkFrame n (map (fun col => (col.1, col.2 ++ replicate (n - length col.2) NaN))
                              (emitted o)),
               <["sampling_rate" := IntVal sampling_rate]> (out_rpeaks o)),
           all_stages)).
Proof.
  intros Hret. split.
  - intros Hbad. rewrite (ecg_process_run C _ _ _ o) by done.
    rewrite pd_DataFrame_primary, decide_False by done. reflexivity.
  - intros Hlen. by rewrite (ecg_process_merged C _ _ _ o).
Qed.

Lemma length_mismatch_outcomes_witness :
  ecg_process (Samples.stub 1 "ECG_Phase_Atrial") Samples.raw3 1000 "neurokit" []
    = (Ok (mkFrame 3 [("ECG_Raw", Samples.raw3); ("ECG_Clean", Samples.raw3);
                      ("ECG_Rate", [NaN; NaN; NaN]); ("ECG_Quality", Samples.zeros 3);
                      ("ECG_R_Peaks", Samples.zeros 3); ("ECG_P_Peaks", Samples.zeros 3);
                      ("ECG_Phase_Atrial", [Num 1%Q; Num 1%Q; NaN])],
           <["sampling_rate" := IntVal 1000]> {["ECG_R_Peaks" := Indices []]}),
       all_stages).
Proof.
  apply (proj2 (length_mismatch_outcomes (Samples.stub 1 "ECG_Phase_Atrial")
                  Samples.raw3 1000 "neurokit"
                  (Samples.stub_outputs 1 "ECG_Phase_Atrial")
                  ltac:(repeat split))).
  repeat split.
Defined.

(** ** Columns of the same name *)

(** C4 as stated fails: when delineation and phase assignment both emit a
    column [ECG_P_Peaks], the merged table does not hold a single column of
    that name with the later values; it holds both. *)
Lemma duplicate_name_keeps_both_columns :
  ~ (exists signals info,
       ecg_process (Samples.stub 0 "ECG_P_Peaks") Samples.raw3 1000 "neurokit" []
         = (Ok (signals, info), all_stages)
       /\ filter (fun c => c.1 = "ECG_P_Peaks") (cols signals)
          = [("ECG_P_Peaks", Samples.ones 3)])
  /\ exists signals info,
       ecg_process (Samples.stub 0 "ECG_P_Peaks") Samples.raw3 1000 "neurokit" []
         = (Ok (signals, info), all_stages)
       /\ filter (fun c => c.1 = "ECG_P_Peaks") (cols signals)
          = [("ECG_P_Peaks", Samples.zeros 3); ("ECG_P_Peaks", Samples.ones 3)].
Proof.
  split.
  - intros (signals & info & Hrun & Hcol).
    vm_compute in Hrun. injection Hrun as <- _.
    vm_compute in Hcol. discriminate Hcol.
  - eexists _, _. split; vm_compute; reflexivity.
Qed.

(** C4, as the code has it.  Under the length contract the merged table
    holds every column the stages emit, each with its own values, in the
    order primary table, peaks, delineation, phase.  Columns of one name
    are all kept, the earlier stage's before the later stage's; none is
    overwritten or dropped. *)
Theorem merge_keeps_every_column
    (C : collaborators) (raw : list float) (sampling_rate : Z) (method : string)
    (o : stage_outputs) :
  stages_return C raw sampling_rate method o ->
  length_contract o ->
  exists signals info,
    ecg_process C raw sampling_rate method [] = (Ok (signals, info), all_stages)
    /\ cols signals = emitted o
    /\ forall name,
         filter (fun c => c.1 = name) (cols signals)
         = filter (fun c => c.1 = name)
             (primary (out_signal o) (out_cleaned o) (out_rate o) (out_quality o))
           ++ filter (fun c => c.1 = name) (cols (out_peaks o))
           ++ filter (fun c => c.1 = name) (cols (out_delineate o))
           ++ filter (fun c => c.1 = name) (cols (out_phase o)).
Proof.
  intros Hret Hcontract.
  destruct (ecg_process_aligned C raw sampling_rate method o [] Hret Hcontract) as [Hrun _].
  eexists _, _. split; [exact Hrun|]. split; [reflexivity|].
  intros name. cbn [cols]. unfold emitted. by rewrite !filter_app.
Qed.

Lemma merge_keeps_every_column_witness :
  exists signals info,
    ecg_process (Samples.stub 0 "ECG_P_Peaks") Samples.raw3 1000 "neurokit" []
      = (Ok (signals, info), all_stages)
    /\ cols signals = emitted (Samples.stub_outputs 0 "ECG_P_Peaks").
Proof.
  destruct (merge_keeps_every_column (Samples.stub 0 "ECG_P_Peaks") Samples.raw3 1000
              "neurokit" (Samples.stub_outputs 0 "ECG_P_Peaks"))
    as (signals & info & Hrun & Hcols & _).
  - repeat split.
  - repeat split; repeat constructor.
  - by exists signals, info.
Defined.

(** ** The sampling rate *)

Lemma extends_ret {A} (a : A) : extends (ret a).
Proof. intros trace. exists []. by rewrite app_nil_r. Qed.

Lemma extends_lift {A} (r : result A) : extends (lift r).
Proof. intros trace. exists []. by rewrite app_nil_r. Qed.

Lemma extends_call {A} (s : stage) (r : result A) : extends (call s r).
Proof. intros trace. by exists [s]. Qed.

Lemma extends_bind {A B} (m : M (list stage) A) (k : A -> M (list stage) B) :
  extends m -> (forall a, extends (k a)) -> extends (bind m k).
Proof.
  intros Hm Hk trace. unfold bind.
  destruct (Hm trace) as [rest Hrest].
  destruct (m trace) as [[e|a] t']; simpl in Hrest; subst t'; [by exists rest|].
  destruct (Hk a (trace ++ rest)) as [rest' ->].
  exists (rest ++ rest'). by rewrite app_assoc.
Qed.

(** One step through the structure of a pipeline computation. *)
Ltac trace_step :=
  first
    [ apply extends_ret
    | apply extends_lift
    | apply extends_call
    | apply extends_bind; [|intros]
    | match goal with
      | |- extends (let '(_, _) := ?p in _) => destruct p
      end ].

(** Sanitation is called first, whatever the arguments. *)
Lemma ecg_process_starts_with_sanitize
    (C : collaborators) (raw : list float) (sampling_rate : Z) (method : string)
    (trace : list stage) :
  exists rest,
    (ecg_process C raw sampling_rate method trace).2 = trace ++ Sanitize :: rest.
Proof.
  unfold ecg_process. unfold bind at 1, call at 1.
  destruct (signal_sanitize C raw) as [e|ecg_signal]; [by exists []|].
  match goal with |- context [bind ?m ?k] => assert (extends (bind m k)) as Hext end.
  { repeat trace_step. }
  destruct (Hext (trace ++ [Sanitize])) as [rest Hrest].
  exists rest. rewrite Hrest. by rewrite <- app_assoc.
Qed.

(** C7 as stated fails: with a sampling rate of zero and stages that do not
    object, the call does not fail at all; every stage runs and the rate is
    recorded as given. *)
Lemma zero_rate_runs_every_stage :
  ~ (exists e,
       ecg_process (Samples.stub 0 "ECG_Phase_Atrial") Samples.raw3 0 "neurokit" []
         = (Raise e, []))
  /\ exists signals info,
       ecg_process (Samples.stub 0 "ECG_Phase_Atrial") Samples.raw3 0 "neurokit" []
         = (Ok (signals, info), all_stages)
       /\ info !! "sampling_rate" = Some (IntVal 0).
Proof.
  split.
  - intros [e He]. vm_compute in He. discriminate He.
  - eexists _, _. split; vm_compute; reflexivity.
Qed.

(** C7, as the code has it.  The pipeline does not inspect the sampling
    rate; whatever its value, zero and negative ones included, sanitation
    is called first; an exception of sanitation or of cleaning is the
    result of the call, raised after those stages ran; the rate reaches the
    cleaning stage as given; and when every stage returns and the primary
    sequences agree in length the call returns the table and records the
    rate unchanged. *)
Theorem sampling_rate_is_not_validated
    (C : collaborators) (raw : list float) (sampling_rate : Z) (method : string) :
  (exists rest, (ecg_process C raw sampling_rate method []).2 = Sanitize :: rest)
  /\ (forall e,
        signal_sanitize C raw = Raise e ->
        ecg_process C raw sampling_rate method [] = (Raise e, [Sanitize]))
  /\ (forall ecg_signal e,
        signal_sanitize C raw = Ok ecg_signal ->
        ecg_clean C ecg_signal sampling_rate method = Raise e ->
        ecg_process C raw sampling_rate method [] = (Raise e, [Sanitize; Clean]))
  /\ (forall o,
        stages_return C raw sampling_rate method o ->
        primary_lengths o ->
        exists signals info,
          ecg_process C raw sampling_rate method [] = (Ok (signals, info), all_stages)
          /\ info !! "sampling_rate" = Some (IntVal sampling_rate)).
Proof.
  split; [apply (ecg_process_starts_with_sanitize C raw sampling_rate method [])|].
  split; [|split].
  - intros e He. unfold ecg_process, bind, call. by rewrite He.
  - intros ecg_signal e Hs Hc. unfold ecg_process, bind, call. by rewrite Hs, Hc.
  - intros o Hret Hlen. rewrite (ecg_process_merged C _ _ _ o) by done.
    eexists _, _. split; [reflexivity|]. apply lookup_insert_eq.
Qed.

Lemma sampling_rate_is_not_validated_witness :
  exists signals info,
    ecg_process (Samples.stub 0 "ECG_Phase_Atrial") Samples.raw3 (-250) "neurokit" []
      = (Ok (signals, info), all_stages)
    /\ info !! "sampling_rate" = Some (IntVal (-250)).
Proof.
  apply (proj2 (proj2 (proj2 (sampling_rate_is_not_validated
                                (Samples.stub 0 "ECG_Phase_Atrial") Samples.raw3 (-250)
                                "neurokit")))
           (Samples.stub_outputs 0 "ECG_Phase_Atrial")).
  - repeat split.
  - repeat split.
Defined.


(** * Further properties of the pipeline *)

(** ** Order of the stages *)

(** X1. Whatever the collaborators do, the stages are called in the fixed
    order sanitize, clean, peaks, rate, quality, delineate, phase, each at
    most once and none skipped: the stages that ran are an initial
    segment of that list, never an empty one; and a table is returned only
    after all seven ran. *)
Theorem stages_run_in_order
    (C : collaborators) (raw : list float) (sampling_rate : Z) (method : string) :
  (exists k, 1 <= k
     /\ (ecg_process C raw sampling_rate method []).2 = take k all_stages)
  /\ (forall v,
        (ecg_process C raw sampling_rate method []).1 = Ok v ->
        (ecg_process C raw sampling_rate method []).2 = all_stages).
Proof.
  unfold ecg_process, bind, call, lift, ret, info_getitem.
  destruct (signal_sanitize C raw) as [e|ecg_signal];
    [split; [exists 1; split; [lia | reflexivity] | discriminate]|].
  destruct (ecg_clean C ecg_signal sampling_rate method) as [e|ecg_cleaned];
    [split; [exists 2; split; [lia | reflexivity] | discriminate]|].
  destruct (ecg_peaks C ecg_cleaned sampling_rate method true) as [e|[instant_peaks rpeaks]];
    [split; [exists 3; split; [lia | reflexivity] | discriminate]|].
  destruct (signal_rate C rpeaks sampling_rate (length ecg_cleaned)) as [e|rate];
    [split; [exists 4; split; [lia | reflexivity] | discriminate]|].
  destruct (rpeaks !! "ECG_R_Peaks") as [r|];
    [|split; [exists 4; split; [lia | reflexivity] | discriminate]].
  destruct (ecg_quality C ecg_cleaned r sampling_rate) as [e|quality];
    [split; [exists 5; split; [lia | reflexivity] | discriminate]|].
  destruct (pd_DataFrame _) as [e|signals];
    [split; [exists 5; split; [lia | reflexivity] | discriminate]|].
  destruct (ecg_delineate C ecg_cleaned rpeaks sampling_rate)
    as [e|[delineate_signal delineate_info]];
    [split; [exists 6; split; [lia | reflexivity] | discriminate]|].
  destruct (ecg_phase C ecg_cleaned rpeaks delineate_info) as [e|cardiac_phase];
    split; try (exists 7; split; [lia | reflexivity]); reflexivity.
Qed.

(** ** Exceptions of the stages *)

(** X2. An exception of peak detection, rate estimation, quality scoring,
    delineation or phase assignment is the result of the call, unchanged,
    and no later stage is called. *)
Theorem stage_exception_propagates
    (C : collaborators) (raw : list float) (sampling_rate : Z) (method : string)
    (ecg_signal ecg_cleaned : list float) (e : exn) :
  signal_sanitize C raw = Ok ecg_signal ->
  ecg_clean C ecg_signal sampling_rate method = Ok ecg_cleaned ->
  (ecg_peaks C ecg_cleaned sampling_rate method true = Raise e ->
   ecg_process C raw sampling_rate method [] = (Raise e, [Sanitize; Clean; Peaks]))
  /\ (forall instant_peaks rpeaks,
        ecg_peaks C ecg_cleaned sampling_rate method true = Ok (instant_peaks, rpeaks) ->
        (signal_rate C rpeaks sampling_rate (length ecg_cleaned) = Raise e ->
         ecg_process C raw sampling_rate method []
           = (Raise e, [Sanitize; Clean; Peaks; Rate]))
        /\ (forall rate r,
              signal_rate C rpeaks sampling_rate (length ecg_cleaned) = Ok rate ->
              rpeaks !! "ECG_R_Peaks" = Some r ->
              (ecg_quality C ecg_cleaned r sampling_rate = Raise e ->
               ecg_process C raw sampling_rate method []
                 = (Raise e, [Sanitize; Clean; Peaks; Rate; Quality]))
              /\ (forall quality,
                    ecg_quality C ecg_cleaned r sampling_rate = Ok quality ->
                    length ecg_cleaned = length ecg_signal ->
                    length rate = length ecg_signal ->
                    length quality = length ecg_signal ->
                    (ecg_delineate C ecg_cleaned rpeaks sampling_rate = Raise e ->
                     ecg_process C raw sampling_rate method []
                       = (Raise e, [Sanitize; Clean; Peaks; Rate; Quality; Delineate]))
                    /\ (forall delineate_signal delineate_info,
                          ecg_delineate C ecg_cleaned rpeaks sampling_rate
                            = Ok (delineate_signal, delineate_info) ->
                          ecg_phase C ecg_cleaned rpeaks delineate_info = Raise e ->
                          ecg_process C raw sampling_rate method []
                            = (Raise e, all_stages))))).
Proof.
  intros Hs Hc. unfold ecg_process, bind, call, lift, ret, info_getitem.
  rewrite Hs, Hc. split; [by intros ->|].
  intros instant_peaks rpeaks ->. split; [by intros ->|].
  intros rate r -> ->. split; [by intros ->|].
  intros quality -> Hlc Hlr Hlq.
  change [("ECG_Raw", ecg_signal); ("ECG_Clean", ecg_cleaned);
          ("ECG_Rate", rate); ("ECG_Quality", quality)]
    with (primary ecg_signal ecg_cleaned rate quality).
  rewrite pd_DataFrame_primary, decide_True by done.
  split; [by intros ->|].
  by intros delineate_signal delineate_info -> ->.
Qed.

Lemma stage_exception_propagates_witness :
  ecg_process Samples.stub_phase_fails Samples.raw3 1000 "neurokit" []
    = (Raise Samples.boom, all_stages).
Proof.
  eapply (stage_exception_propagates Samples.stub_phase_fails Samples.raw3 1000 "neurokit"
            Samples.raw3 Samples.raw3 Samples.boom eq_refl eq_refl).
  - reflexivity.
  - reflexivity.
  - reflexivity.
  - reflexivity.
  - reflexivity.
  - reflexivity.
  - reflexivity.
  - reflexivity.
  - reflexivity.
Defined.

(** X3. When the record returned by peak detection has no entry
    [ECG_R_Peaks], the call raises the key-lookup error for that name; the
    rate has been estimated by then, quality scoring and the later stages
    are not called. *)
Theorem missing_r_peaks_entry
    (C : collaborators) (raw : list float) (sampling_rate : Z) (method : string)
    (ecg_signal ecg_cleaned rate : list float)
    (instant_peaks : DataFrame float) (rpeaks : info) :
  signal_sanitize C raw = Ok ecg_signal ->
  ecg_clean C ecg_signal sampling_rate method = Ok ecg_cleaned ->
  ecg_peaks C ecg_cleaned sampling_rate method true = Ok (instant_peaks, rpeaks) ->
  signal_rate C rpeaks sampling_rate (length ecg_cleaned) = Ok rate ->
  rpeaks !! "ECG_R_Peaks" = None ->
  ecg_process C raw sampling_rate method []
    = (Raise (KeyError "ECG_R_Peaks"), [Sanitize; Clean; Peaks; Rate]).
Proof.
  intros Hs Hc Hp Hr Hk. unfold ecg_process, bind, call, lift, ret, info_getitem.
  by rewrite Hs, Hc, Hp, Hr, Hk.
Qed.

Lemma missing_r_peaks_entry_witness :
  ecg_process Samples.stub_no_r_peaks Samples.raw3 1000 "neurokit" []
    = (Raise (KeyError "ECG_R_Peaks"), [Sanitize; Clean; Peaks; Rate]).
Proof.
  apply (missing_r_peaks_entry Samples.stub_no_r_peaks Samples.raw3 1000 "neurokit"
           Samples.raw3 Samples.raw3 (replicate 3 NaN)
           (mkFrame 3 [("ECG_R_Peaks", Samples.zeros 3)])
           {["method" := TextVal "neurokit"]});
    reflexivity.
Defined.

(** ** The info record *)

(** X4. The info record returned with the table is the record of the peak
    detector with the entry [sampling_rate] set to the rate of the call: an
    entry of that name the detector may have made is replaced, every other
    entry, [ECG_R_Peaks] among them, is as the detector returned it. *)
Theorem info_is_rpeaks_with_rate
    (C : collaborators) (raw : list float) (sampling_rate : Z) (method : string)
    (o : stage_outputs) :
  stages_return C raw sampling_rate method o ->
  primary_lengths o ->
  exists signals info,
    ecg_process C raw sampling_rate method [] = (Ok (signals, info), all_stages)
    /\ info !! "sampling_rate" = Some (IntVal sampling_rate)
    /\ info !! "ECG_R_Peaks" = Some (out_r_peaks o)
    /\ (forall key, key <> "sampling_rate" -> info !! key = out_rpeaks o !! key).
Proof.
  intros Hret Hlen. rewrite (ecg_process_merged C _ _ _ o) by done.
  destruct Hret as (_ & _ & _ & _ & Hk & _).
  eexists _, _. split; [reflexivity|].
  split; [apply lookup_insert_eq|].
  split; [by rewrite lookup_insert_ne|].
  intros key Hne. by rewrite lookup_insert_ne.
Qed.

Lemma info_is_rpeaks_with_rate_witness :
  exists signals info,
    ecg_process (Samples.stub 0 "ECG_Phase_Atrial") Samples.raw3 250 "neurokit" []
      = (Ok (signals, info), all_stages)
    /\ info !! "sampling_rate" = Some (IntVal 250)
    /\ info !! "ECG_R_Peaks" = Some (Indices []).
Proof.
  destruct (info_is_rpeaks_with_rate (Samples.stub 0 "ECG_Phase_Atrial") Samples.raw3 250
              "neurokit" (Samples.stub_outputs 0 "ECG_Phase_Atrial"))
    as (signals & info & Hrun & Hrate & Hpeaks & _).
  - repeat split.
  - repeat split.
  - by exists signals, info.
Defined.

(** ** Artifact correction *)

(** X5. Peak detection is only ever asked for artifact-corrected peaks: two
    sets of collaborators that differ in nothing but what peak detection
    does without artifact correction give the same run. *)
Theorem peaks_always_artifact_corrected
    (C C' : collaborators) (raw : list float) (sampling_rate : Z) (method : string)
    (trace : list stage) :
  signal_sanitize C' = signal_sanitize C ->
  ecg_clean C' = ecg_clean C ->
  (forall c sr m, ecg_peaks C' c sr m true = ecg_peaks C c sr m true) ->
  signal_rate C' = signal_rate C ->
  ecg_quality C' = ecg_quality C ->
  ecg_delineate C' = ecg_delineate C ->
  ecg_phase C' = ecg_phase C ->
  ecg_process C' raw sampling_rate method trace
    = ecg_process C raw sampling_rate method trace.
Proof.
  intros Hs Hc Hp Hr Hq Hd Hph. unfold ecg_process.
  rewrite Hs, Hc, Hr, Hq, Hd, Hph. unfold bind, call.
  destruct (signal_sanitize C raw) as [e|ecg_signal]; [reflexivity|].
  destruct (ecg_clean C ecg_signal sampling_rate method) as [e|ecg_cleaned]; [reflexivity|].
  by rewrite Hp.
Qed.

Lemma peaks_always_artifact_corrected_witness :
  ecg_process Samples.stub_needs_correction Samples.raw3 1000 "neurokit" []
    = ecg_process (Samples.stub 0 "ECG_Phase_Atrial") Samples.raw3 1000 "neurokit" [].
Proof.
  apply (peaks_always_artifact_corrected (Samples.stub 0 "ECG_Phase_Atrial")
           Samples.stub_needs_correction Samples.raw3 1000 "neurokit" []);
    reflexivity.
Defined.

(** ** Shape of the merged table *)

Lemma max_list_ge (n : nat) (ns : list nat) : n ∈ ns -> n <= max_list ns.
Proof.
  induction ns as [|m ns IH]; [by intros ?%not_elem_of_nil|].
  intros [->|Hin]%elem_of_cons; simpl; [lia|]. specialize (IH Hin). lia.
Qed.

(** X6. When every stage returns, the primary sequences agree in length
    and the three stage tables are rectangular, the returned table is
    rectangular too, whatever the row counts of the stage tables: each of
    its columns has one entry per row, and it has at least as many rows as
    the signal has samples and as any stage table has rows. *)
Theorem merged_table_is_rectangular
    (C : collaborators) (raw : list float) (sampling_rate : Z) (method : string)
    (o : stage_outputs) :
  stages_return C raw sampling_rate method o ->
  primary_lengths o ->
  wf_frame (out_peaks o) ->
  wf_frame (out_delineate o) ->
  wf_frame (out_phase o) ->
  exists signals info,
    ecg_process C raw sampling_rate method [] = (Ok (signals, info), all_stages)
    /\ wf_frame signals
    /\ length (out_signal o) <= nrows signals
    /\ nrows (out_peaks o) <= nrows signals
    /\ nrows (out_delineate o) <= nrows signals
    /\ nrows (out_phase o) <= nrows signals.
Proof.
  intros Hret Hlen Hw1 Hw2 Hw3. rewrite (ecg_process_merged C _ _ _ o) by done.
  cbv zeta. eexists _, _. split; [reflexivity|].
  set (n := max_list _).
  assert (length (out_signal o) <= n) as Hn0 by (apply max_list_ge; set_solver).
  assert (nrows (out_peaks o) <= n) as Hn1 by (apply max_list_ge; set_solver).
  assert (nrows (out_delineate o) <= n) as Hn2 by (apply max_list_ge; set_solver).
  assert (nrows (out_phase o) <= n) as Hn3 by (apply max_list_ge; set_solver).
  split; [|done].
  unfold wf_frame. cbn [cols nrows].
  apply Forall_fmap, Forall_forall. intros c Hc. unfold compose. cbn [snd].
  unfold reindex. rewrite length_app, length_replicate.
  assert (length c.2 <= n); [|lia].
  unfold emitted, primary in Hc. destruct Hlen as (Hlc & Hlr & Hlq).
  unfold wf_frame in Hw1, Hw2, Hw3. rewrite Forall_forall in Hw1, Hw2, Hw3.
  rewrite !elem_of_app in Hc. destruct Hc as [Hc|[Hc|[Hc|Hc]]].
  - repeat (apply elem_of_cons in Hc as [->|Hc]; [simpl; lia|]).
    by apply not_elem_of_nil in Hc.
  - rewrite (Hw1 c Hc). lia.
  - rewrite (Hw2 c Hc). lia.
  - rewrite (Hw3 c Hc). lia.
Qed.

Lemma merged_table_is_rectangular_witness :
  exists signals info,
    ecg_process (Samples.stub 1 "ECG_Phase_Atrial") Samples.raw3 1000 "neurokit" []
      = (Ok (signals, info), all_stages)
    /\ wf_frame signals
    /\ 3 <= nrows signals.
Proof.
  destruct (merged_table_is_rectangular (Samples.stub 1 "ECG_Phase_Atrial") Samples.raw3 1000
              "neurokit" (Samples.stub_outputs 1 "ECG_Phase_Atrial"))
    as (signals & info & Hrun & Hwf & Hn & _).
  - repeat split.
  - repeat split.
  - repeat constructor.
  - repeat constructor.
  - repeat constructor.
  - by exists signals, info.
Defined.


(** * Further properties of the aggregator *)

(** ** What the engine's columns do to a dictionary *)

Lemma store_columns_fold_lookup (results : DataFrame float) (ks : list string) (out : dict) :
  (forall k, k ∈ ks -> k ∈ columns results) ->
  exists out',
    foldl (fun acc column =>
             match acc with
             | inl e => inl e
             | inr o =>
                 match getitem_values results column with
                 | inl e => inl e
                 | inr a => inr (<[column := Array a]> o)
                 end
             end) (Ok out) ks = Ok out'
    /\ (forall k,
          out' !! k =
            if decide (k ∈ ks)
            then match getitem_values results k with
                 | inr a => Some (Array a)
                 | inl _ => None
                 end
            else out !! k).
Proof.
  revert out. induction ks as [|k0 ks IH]; intros out Hks.
  - exists out. split; [reflexivity|]. intros k.
    rewrite decide_False; [done | apply not_elem_of_nil].
  - destruct (getitem_values_present results k0) as [a0 Ha0]; [apply Hks; by left|].
    destruct (IH (<[k0 := Array a0]> out)) as (out' & Hfold & Hlook).
    { intros j Hj. apply Hks. by right. }
    exists out'. split; [simpl; by rewrite Ha0|].
    intros k. rewrite Hlook.
    destruct (decide (k ∈ ks)) as [Hin|Hnin].
    + rewrite decide_True; [done | by right].
    + destruct (decide (k = k0)) as [->|Hne].
      * rewrite decide_True by (by left). by rewrite lookup_insert_eq, Ha0.
      * rewrite decide_False by (by intros [?|?]%elem_of_cons).
        by rewrite lookup_insert_ne.
Qed.

(** Every column of the engine's frame is written, over whatever the
    dictionary held under that name; the other keys stay. *)
Lemma store_columns_lookup (results : DataFrame float) (out : dict) :
  exists out',
    store_columns results out = Ok out'
    /\ (forall k,
          out' !! k =
            match getitem_values results k with
            | inr a => Some (Array a)
            | inl _ => out !! k
            end).
Proof.
  destruct (store_columns_fold_lookup results (columns results) out) as (out' & Hfold & Hlook);
    [done|].
  exists out'. split; [exact Hfold|].
  intros k. rewrite Hlook.
  destruct (decide (k ∈ columns results)) as [Hin|Hnin].
  - by destruct (getitem_values_present results k Hin) as [a ->].
  - by rewrite getitem_values_missing.
Qed.

Lemma peaks_indices_cols (data : DataFrame cell) (idx : list nat) :
  peaks_indices data = Ok idx -> peaks_cols data <> [].
Proof.
  unfold peaks_indices. intros Hidx Ep.
  destruct (getitem_values data "PPG_Peaks") as [e|a] eqn:Hget; [done|].
  apply getitem_values_elem in Hget.
  assert ("PPG_Peaks" ∈ peaks_cols data) as Hel
    by (apply list_elem_of_filter; split; [reflexivity | done]).
  rewrite Ep in Hel. by apply not_elem_of_nil in Hel.
Qed.

Lemma rate_values_cols (data : DataFrame cell) (a : ndarray cell) :
  getitem_values data "PPG_Rate" = Ok a -> rate_cols data <> [].
Proof.
  intros Hget Er. apply getitem_values_elem in Hget.
  assert ("PPG_Rate" ∈ rate_cols data) as Hel
    by (apply list_elem_of_filter; split; [reflexivity | done]).
  rewrite Er in Hel. by apply not_elem_of_nil in Hel.
Qed.

Section SingleTable.

Variable hrv : gmap string (list nat) -> Z -> result (DataFrame float).

(** The single-table run when the columns are in order and the engine
    returns. *)
Lemma table_run_ok (data : DataFrame cell) (sampling_rate : Z) (st : defaults)
    (a : ndarray cell) (m : float) (idx : list nat) (results : DataFrame float) :
  length (rate_cols data) = 1 ->
  getitem_values data "PPG_Rate" = Ok a ->
  np_mean a = Ok m ->
  peaks_indices data = Ok idx ->
  hrv {["PPG_Peaks" := idx]} sampling_rate = Ok results ->
  exists o2,
    store_columns results (hrv_output st) = Ok o2
    /\ ppg_intervalrelated hrv (Table data) sampling_rate st
       = (Ok (SummaryRow
                (update (update ∅ (<["PPG_Rate_Mean" := Scalar (Flt m)]> (formatinput_output st)))
                        o2)),
          mkDefaults (<["PPG_Rate_Mean" := Scalar (Flt m)]> (formatinput_output st)) o2).
Proof.
  intros H1 Ha Hm Hidx Hhrv.
  destruct (store_columns_lookup results (hrv_output st)) as (o2 & Ho2 & _).
  exists o2. split; [exact Ho2|].
  rewrite table_run, formatinput_run by done.
  destruct (rate_cols data); [done|]. rewrite Ha, Hm. cbv beta iota zeta.
  rewrite hrv_run. pose proof (peaks_indices_cols data idx Hidx) as Hp.
  destruct (peaks_cols data); [done|].
  rewrite Hidx, Hhrv. cbn [hrv_output formatinput_output]. by rewrite Ho2.
Qed.

Lemma table_row_lookup (st : defaults) (m : float) (results : DataFrame float)
    (o2 : dict) (k : string) :
  store_columns results (hrv_output st) = Ok o2 ->
  update (update ∅ (<["PPG_Rate_Mean" := Scalar (Flt m)]> (formatinput_output st))) o2 !! k =
    match getitem_values results k with
    | inr arr => Some (Array arr)
    | inl _ =>
        match hrv_output st !! k with
        | Some v => Some v
        | None =>
            if decide (k = "PPG_Rate_Mean") then Some (Scalar (Flt m))
            else formatinput_output st !! k
        end
    end.
Proof.
  intros Ho2.
  destruct (store_columns_lookup results (hrv_output st)) as (o2' & Ho2' & Hlook).
  assert (o2' = o2) as -> by congruence.
  unfold update. rewrite lookup_union, Hlook.
  destruct (getitem_values results k) as [e|arr].
  - destruct (hrv_output st !! k) as [v|].
    + by rewrite union_Some_l.
    + rewrite (left_id None _). rewrite lookup_union_l by apply lookup_empty.
      destruct (decide (k = "PPG_Rate_Mean")) as [->|Hne].
      * apply lookup_insert_eq.
      * by rewrite lookup_insert_ne.
  - by rewrite union_Some_l.
Qed.

End SingleTable.

(** ** The row of a single-table call *)

(** X7. In single-table mode, when the columns are in order and the engine
    returns, the row is filled by precedence: every column of the engine's
    frame appears with the engine's values; a name the engine does not
    report keeps the value an earlier call left in the engine default; the
    mean rate comes next, and below it whatever the other default holds. *)
Theorem single_table_row_precedence
    (hrv : gmap string (list nat) -> Z -> result (DataFrame float))
    (data : DataFrame cell) (sampling_rate : Z) (st : defaults)
    (a : ndarray cell) (m : float) (idx : list nat) (results : DataFrame float) :
  length (rate_cols data) = 1 ->
  getitem_values data "PPG_Rate" = Ok a ->
  np_mean a = Ok m ->
  peaks_indices data = Ok idx ->
  hrv {["PPG_Peaks" := idx]} sampling_rate = Ok results ->
  exists row st',
    ppg_intervalrelated hrv (Table data) sampling_rate st = (Ok (SummaryRow row), st')
    /\ (forall k arr, getitem_values results k = Ok arr -> row !! k = Some (Array arr))
    /\ (forall k v,
          k ∉ columns results -> hrv_output st !! k = Some v -> row !! k = Some v)
    /\ ("PPG_Rate_Mean" ∉ columns results ->
        hrv_output st !! "PPG_Rate_Mean" = None ->
        row !! "PPG_Rate_Mean" = Some (Scalar (Flt m)))
    /\ (forall k,
          k ∉ columns results -> hrv_output st !! k = None -> k <> "PPG_Rate_Mean" ->
          row !! k = formatinput_output st !! k).
Proof.
  intros H1 Ha Hm Hidx Hhrv.
  destruct (table_run_ok hrv data sampling_rate st a m idx results) as (o2 & Ho2 & Hrun);
    [done..|].
  eexists _, _. split; [exact Hrun|].
  split; [|split; [|split]].
  - intros k arr Hk. by rewrite (table_row_lookup st m results o2 k Ho2), Hk.
  - intros k v Hk Hv.
    by rewrite (table_row_lookup st m results o2 k Ho2), getitem_values_missing, Hv.
  - intros Hk Hv.
    by rewrite (table_row_lookup st m results o2 _ Ho2), getitem_values_missing, Hv.
  - intros k Hk Hv Hne.
    rewrite (table_row_lookup st m results o2 k Ho2), getitem_values_missing, Hv by done.
    by rewrite decide_False.
Qed.

Lemma single_table_row_precedence_witness :
  exists row st',
    ppg_intervalrelated Samples.hrv_stub (Table Samples.short_table) 100
      (mkDefaults ∅ {["HRV_DFA_alpha2" := Array (Arr1 [Num (inject_Z 100)])]})
      = (Ok (SummaryRow row), st')
    /\ row !! "HRV_MeanNN" = Some (Array (Arr1 [Num (inject_Z 1)]))
    /\ row !! "HRV_DFA_alpha2" = Some (Array (Arr1 [Num (inject_Z 100)])).
Proof.
  destruct (single_table_row_precedence Samples.hrv_stub Samples.short_table 100
              (mkDefaults ∅ {["HRV_DFA_alpha2" := Array (Arr1 [Num (inject_Z 100)])]})
              (Arr1 [Samples.num 70; Samples.num 70; Samples.num 70])
              (Num (inject_Z 70)) [1]
              (mkFrame 1 [("HRV_MeanNN", [Num (inject_Z 1)])])
              eq_refl eq_refl eq_refl eq_refl eq_refl)
    as (row & st' & Hrun & Hengine & Hleft & _).
  exists row, st'. split; [exact Hrun|]. split.
  - apply Hengine. reflexivity.
  - apply Hleft; [|reflexivity].
    apply (bool_decide_unpack _). vm_compute. exact I.
Defined.

(** X8. The state earlier calls leave behind does not show in the features
    when the engine reports, in the present call, every name the engine
    default holds (and the other default holds the mean only): the
    single-table call then returns a row that has, under every feature
    name, the value the row of a first call of a process has, and no other
    feature.  (The order of the columns is not compared.) *)
Theorem leftovers_covered_by_engine
    (hrv : gmap string (list nat) -> Z -> result (DataFrame float))
    (data : DataFrame cell) (sampling_rate : Z) (st : defaults)
    (a : ndarray cell) (m : float) (idx : list nat) (results : DataFrame float) :
  length (rate_cols data) = 1 ->
  getitem_values data "PPG_Rate" = Ok a ->
  np_mean a = Ok m ->
  peaks_indices data = Ok idx ->
  hrv {["PPG_Peaks" := idx]} sampling_rate = Ok results ->
  (forall k, is_Some (hrv_output st !! k) -> k ∈ columns results) ->
  (forall k, k <> "PPG_Rate_Mean" -> formatinput_output st !! k = None) ->
  exists row st' first st1,
    ppg_intervalrelated hrv (Table data) sampling_rate st = (Ok (SummaryRow row), st')
    /\ ppg_intervalrelated hrv (Table data) sampling_rate fresh
       = (Ok (SummaryRow first), st1)
    /\ (forall k, row !! k = first !! k).
Proof.
  intros H1 Ha Hm Hidx Hhrv Hcov Hfmt.
  destruct (table_run_ok hrv data sampling_rate st a m idx results) as (o2 & Ho2 & ->);
    [done..|].
  destruct (table_run_ok hrv data sampling_rate fresh a m idx results) as (o2' & Ho2' & ->);
    [done..|].
  eexists _, _, _, _. split; [reflexivity|]. split; [reflexivity|]. intros k.
  rewrite (table_row_lookup st m results o2 k Ho2).
  rewrite (table_row_lookup fresh m results o2' k Ho2').
  destruct (getitem_values results k) as [e|arr] eqn:Hk; [|reflexivity].
  assert (hrv_output st !! k = None) as ->.
  { destruct (hrv_output st !! k) as [v|] eqn:Hv; [|reflexivity].
    destruct (getitem_values_present results k) as [arr Harr]; [|congruence].
    apply Hcov. by rewrite Hv. }
  cbn [fresh hrv_output formatinput_output]. rewrite !lookup_empty.
  destruct (decide (k = "PPG_Rate_Mean")); [reflexivity|]. by apply Hfmt.
Qed.

Lemma leftovers_covered_by_engine_witness :
  exists row st' first st1,
    ppg_intervalrelated Samples.hrv_stub (Table Samples.short_table) 100
      (mkDefaults {["PPG_Rate_Mean" := Scalar (Samples.num 68)]}
                  {["HRV_MeanNN" := Array (Arr1 [Num (inject_Z 3)])]})
      = (Ok (SummaryRow row), st')
    /\ ppg_intervalrelated Samples.hrv_stub (Table Samples.short_table) 100 fresh
       = (Ok (SummaryRow first), st1)
    /\ (forall k, row !! k = first !! k).
Proof.
  apply (leftovers_covered_by_engine Samples.hrv_stub Samples.short_table 100
           (mkDefaults {["PPG_Rate_Mean" := Scalar (Samples.num 68)]}
                       {["HRV_MeanNN" := Array (Arr1 [Num (inject_Z 3)])]})
           (Arr1 [Samples.num 70; Samples.num 70; Samples.num 70])
           (Num (inject_Z 70)) [1]
           (mkFrame 1 [("HRV_MeanNN", [Num (inject_Z 1)])])
           eq_refl eq_refl eq_refl eq_refl eq_refl).
  - intros k [v Hv]. cbn [hrv_output] in Hv.
    apply lookup_singleton_Some in Hv as [<- _].
    apply (bool_decide_unpack _). vm_compute. exact I.
  - intros k Hne. cbn [formatinput_output]. by apply lookup_singleton_ne.
Defined.

(** ** The defaults over time *)

(** X9. No call, in either mode, successful or not, removes a key from one
    of the two default dictionaries; and the only key of the first one a
    call may write is [PPG_Rate_Mean]. *)
Theorem defaults_only_grow
    (hrv : gmap string (list nat) -> Z -> result (DataFrame float))
    (data : input) (sampling_rate : Z) (st : defaults) :
  (forall k,
     is_Some (formatinput_output st !! k) ->
     is_Some (formatinput_output (ppg_intervalrelated hrv data sampling_rate st).2 !! k))
  /\ (forall k,
        k <> "PPG_Rate_Mean" ->
        formatinput_output (ppg_intervalrelated hrv data sampling_rate st).2 !! k
          = formatinput_output st !! k)
  /\ (forall k,
        is_Some (hrv_output st !! k) ->
        is_Some (hrv_output (ppg_intervalrelated hrv data sampling_rate st).2 !! k)).
Proof.
  destruct data as [data|data].
  - destruct (decide (length (rate_cols data) = 1)) as [H1|H1].
    + rewrite table_run, formatinput_run by done.
      destruct (rate_cols data); [done|].
      destruct (getitem_values data "PPG_Rate") as [e|a]; [done|].
      destruct (np_mean a) as [e|m]; [done|]. cbv beta iota zeta.
      assert (forall k, is_Some (formatinput_output st !! k) ->
                is_Some (<["PPG_Rate_Mean" := Scalar (Flt m)]> (formatinput_output st) !! k))
        as Hgrow.
      { intros k Hk. destruct (decide (k = "PPG_Rate_Mean")) as [->|Hne].
        - rewrite lookup_insert_eq. by eexists.
        - by rewrite lookup_insert_ne. }
      assert (forall k, k <> "PPG_Rate_Mean" ->
                <["PPG_Rate_Mean" := Scalar (Flt m)]> (formatinput_output st) !! k
                  = formatinput_output st !! k) as Hsame
        by (intros k Hne; by rewrite lookup_insert_ne).
      rewrite hrv_run. cbn [hrv_output formatinput_output].
      destruct (peaks_cols data); [done|].
      destruct (peaks_indices data) as [e|idx]; [done|].
      destruct (hrv _ sampling_rate) as [e|results]; [done|].
      destruct (store_columns_lookup results (hrv_output st)) as (o2 & -> & Hlook).
      cbn [snd hrv_output formatinput_output]. split; [done|]. split; [done|].
      intros k Hk. rewrite Hlook. by destruct (getitem_values results k).
    + unfold ppg_intervalrelated. fold (rate_cols data).
      destruct (Nat.eqb_spec (length (rate_cols data)) 1); [contradiction|done].
  - by rewrite collection_mode_keeps_defaults.
Qed.

(** ** Exceptions of the engine *)

(** X10. An exception of the variability engine is the result of the call,
    unchanged, in both modes.  In single-table mode the mean rate has by
    then been written to the first default dictionary, and stays there;
    the engine default is as before.  In collection mode the engine may
    raise at any label of the batch: when the labels before it aggregate
    without error, its exception ends the call, whatever labels follow,
    and the defaults are untouched. *)
Theorem engine_exception_propagates
    (hrv : gmap string (list nat) -> Z -> result (DataFrame float))
    (data : DataFrame cell) (sampling_rate : Z) (st : defaults)
    (a : ndarray cell) (m : float) (idx : list nat) (e : exn) :
  getitem_values data "PPG_Rate" = Ok a ->
  np_mean a = Ok m ->
  peaks_indices data = Ok idx ->
  hrv {["PPG_Peaks" := idx]} sampling_rate = Raise e ->
  (length (rate_cols data) = 1 ->
   ppg_intervalrelated hrv (Table data) sampling_rate st
     = (Raise e,
        mkDefaults (<["PPG_Rate_Mean" := Scalar (Flt m)]> (formatinput_output st))
                   (hrv_output st)))
  /\ (forall pre post index label rows,
        ppg_intervalrelated hrv (Epochs pre) sampling_rate st
          = (Ok (SummaryRows rows), st) ->
        label_iloc0 data = Ok label ->
        ppg_intervalrelated hrv (Epochs (pre ++ (index, data) :: post)) sampling_rate st
          = (Raise e, st)).
Proof.
  intros Ha Hm Hidx Hhrv.
  pose proof (rate_values_cols data a Ha) as Hr.
  pose proof (peaks_indices_cols data idx Hidx) as Hp.
  split.
  - intros H1. rewrite table_run, formatinput_run by done.
    destruct (rate_cols data); [done|]. rewrite Ha, Hm. cbv beta iota zeta.
    rewrite hrv_run. destruct (peaks_cols data); [done|].
    by rewrite Hidx, Hhrv.
  - intros pre post index label rows Hpre Hlabel.
    rewrite epochs_run in Hpre. rewrite epochs_run, for_each_app.
    destruct (for_each pre ∅ (epoch_step hrv sampling_rate) st) as [[e'|acc] st1];
      [discriminate|].
    injection Hpre as _ ->.
    cbn [for_each]. unfold bind.
    rewrite epoch_step_run, Hlabel, formatinput_run.
    destruct (rate_cols data); [done|]. rewrite Ha, Hm. cbv beta iota.
    rewrite hrv_run. destruct (peaks_cols data); [done|].
    by rewrite Hidx, Hhrv.
Qed.

(** An engine that raises on the recording under label [B] only: the one
    with no event. *)
Lemma engine_exception_propagates_witness :
  ppg_intervalrelated Samples.hrv_fails (Table Samples.short_table) 100 fresh
    = (Raise Samples.boom,
       mkDefaults {["PPG_Rate_Mean" := Scalar (Samples.num 70)]} ∅)
  /\ ppg_intervalrelated Samples.hrv_picky
       (Epochs [("A", Samples.epoch "A"); ("B", Samples.quiet_epoch "B");
                ("C", Samples.epoch "C")]) 100 fresh
     = (Raise Samples.boom, fresh).
Proof.
  split.
  - apply (proj1 (engine_exception_propagates Samples.hrv_fails Samples.short_table 100 fresh
                    (Arr1 [Samples.num 70; Samples.num 70; Samples.num 70])
                    (Num (inject_Z 70)) [1] Samples.boom
                    eq_refl eq_refl eq_refl eq_refl)).
    reflexivity.
  - assert (exists rows,
              ppg_intervalrelated Samples.hrv_picky (Epochs [("A", Samples.epoch "A")]) 100
                fresh = (Ok (SummaryRows rows), fresh)) as [rows Hpre]
      by (eexists; vm_compute; reflexivity).
    apply (proj2 (engine_exception_propagates Samples.hrv_picky (Samples.quiet_epoch "B")
                    100 fresh
                    (Arr1 [Samples.num 70; Samples.num 70; Samples.num 70])
                    (Num (inject_Z 70)) [] Samples.boom
                    eq_refl eq_refl eq_refl eq_refl)
             [("A", Samples.epoch "A")] [("C", Samples.epoch "C")] "B"
             (Scalar (Txt "B")) rows Hpre).
    reflexivity.
Defined.

(** ** Collection mode, label by label *)

Section Collection.

Variable hrv : gmap string (list nat) -> Z -> result (DataFrame float).

(** What one pass of the loop does depends on the label's table only. *)
Lemma epoch_step_shape (sampling_rate : Z) (df : DataFrame cell) :
  exists r : result dict,
    forall index intervals st,
      epoch_step hrv sampling_rate intervals (index, df) st =
        (match r with
         | inl e => Raise e
         | inr row => Ok (<[index := row]> intervals)
         end, st).
Proof.
  destruct (label_iloc0 df) as [e|label] eqn:Hlabel.
  { exists (inl e). intros. by rewrite epoch_step_run, Hlabel. }
  destruct (rate_cols df) as [|c cs] eqn:Er.
  { exists (inl (ValueError rate_msg)). intros.
    by rewrite epoch_step_run, Hlabel, formatinput_run, Er. }
  destruct (getitem_values df "PPG_Rate") as [e|a] eqn:Ha.
  { exists (inl e). intros. by rewrite epoch_step_run, Hlabel, formatinput_run, Er, Ha. }
  destruct (np_mean a) as [e|m] eqn:Hm.
  { exists (inl e). intros. by rewrite epoch_step_run, Hlabel, formatinput_run, Er, Ha, Hm. }
  destruct (peaks_cols df) as [|p ps] eqn:Ep.
  { exists (inl (ValueError peaks_msg)). intros.
    by rewrite epoch_step_run, Hlabel, formatinput_run, Er, Ha, Hm, hrv_run, Ep. }
  destruct (peaks_indices df) as [e|idx] eqn:Hidx.
  { exists (inl e). intros.
    by rewrite epoch_step_run, Hlabel, formatinput_run, Er, Ha, Hm, hrv_run, Ep, Hidx. }
  destruct (hrv {["PPG_Peaks" := idx]} sampling_rate) as [e|results] eqn:Hhrv.
  { exists (inl e). intros.
    by rewrite epoch_step_run, Hlabel, formatinput_run, Er, Ha, Hm, hrv_run, Ep, Hidx, Hhrv. }
  exists (store_columns results
            (<["PPG_Rate_Mean" := Scalar (Flt m)]> (<["Label" := label]> ∅))).
  intros. rewrite epoch_step_run, Hlabel, formatinput_run, Er, Ha, Hm, hrv_run, Ep, Hidx, Hhrv.
  by destruct (store_columns results _).
Qed.

(** The pass for a label whose table is in order. *)
Lemma epoch_step_ok (sampling_rate : Z) (df : DataFrame cell)
    (label : pyval) (a : ndarray cell) (m : float) (idx : list nat)
    (results : DataFrame float) :
  label_iloc0 df = Ok label ->
  getitem_values df "PPG_Rate" = Ok a ->
  np_mean a = Ok m ->
  peaks_indices df = Ok idx ->
  hrv {["PPG_Peaks" := idx]} sampling_rate = Ok results ->
  exists row,
    store_columns results (<["PPG_Rate_Mean" := Scalar (Flt m)]> (<["Label" := label]> ∅))
      = Ok row
    /\ forall index intervals st,
         epoch_step hrv sampling_rate intervals (index, df) st
           = (Ok (<[index := row]> intervals), st).
Proof.
  intros Hlabel Ha Hm Hidx Hhrv.
  pose proof (rate_values_cols df a Ha) as Hr.
  pose proof (peaks_indices_cols df idx Hidx) as Hp.
  destruct (store_columns_lookup results
              (<["PPG_Rate_Mean" := Scalar (Flt m)]> (<["Label" := label]> ∅)))
    as (row & Hrow & _).
  exists row. split; [exact Hrow|]. intros.
  rewrite epoch_step_run, Hlabel, formatinput_run.
  destruct (rate_cols df); [done|]. rewrite Ha, Hm. cbv beta iota.
  rewrite hrv_run. destruct (peaks_cols df); [done|].
  by rewrite Hidx, Hhrv, Hrow.
Qed.

Lemma singleton_run (sampling_rate : Z) (index : string) (df : DataFrame cell)
    (st : defaults) (row : dict) :
  (forall intervals st',
     epoch_step hrv sampling_rate intervals (index, df) st'
       = (Ok (<[index := row]> intervals), st')) ->
  ppg_intervalrelated hrv (Epochs [(index, df)]) sampling_rate st
    = (Ok (SummaryRows {[index := row]}), st).
Proof.
  intros Hstep. rewrite epochs_run. cbn [for_each]. unfold bind. rewrite Hstep.
  unfold ret. by rewrite insert_empty.
Qed.

Lemma epochs_loop_rows (sampling_rate : Z) (data : list (string * DataFrame cell))
    (intervals rows : gmap string dict) (st st' : defaults) :
  for_each data intervals (epoch_step hrv sampling_rate) st = (Ok rows, st') ->
  NoDup (map fst data) ->
  (forall k, k ∉ map fst data -> rows !! k = intervals !! k)
  /\ (forall index df,
        (index, df) ∈ data ->
        exists row,
          rows !! index = Some row
          /\ forall acc st2,
               epoch_step hrv sampling_rate acc (index, df) st2
                 = (Ok (<[index := row]> acc), st2)).
Proof.
  revert intervals. induction data as [|[i d] data IH]; intros intervals Hrun Hnd.
  - cbn in Hrun. injection Hrun as <- _. split; [done|].
    by intros index df ?%not_elem_of_nil.
  - cbn [for_each] in Hrun. unfold bind in Hrun.
    destruct (epoch_step_shape sampling_rate d) as [r Hr].
    rewrite Hr in Hrun. destruct r as [e|row]; [discriminate|].
    cbn [map fst] in Hnd. apply NoDup_cons in Hnd as [Hi Hnd].
    destruct (IH _ Hrun Hnd) as [Hother Hin]. split.
    + intros k [Hne Hk]%not_elem_of_cons. rewrite (Hother k Hk).
      by rewrite lookup_insert_ne.
    + intros index df [Heq|Hel]%elem_of_cons.
      * injection Heq as ? ?; subst index df. exists row. split; [|intros; apply Hr].
        etrans; [apply Hother, Hi | apply lookup_insert_eq].
      * by apply Hin.
Qed.

Lemma epochs_loop_total (sampling_rate : Z) (data : list (string * DataFrame cell))
    (intervals : gmap string dict) (st : defaults) :
  (forall index df,
     (index, df) ∈ data ->
     exists row, forall acc st2,
       epoch_step hrv sampling_rate acc (index, df) st2 = (Ok (<[index := row]> acc), st2)) ->
  exists rows, for_each data intervals (epoch_step hrv sampling_rate) st = (Ok rows, st).
Proof.
  revert intervals. induction data as [|[i d] data IH]; intros intervals Hall.
  - by exists intervals.
  - destruct (Hall i d) as [row Hrow]; [by left|].
    cbn [for_each]. unfold bind. rewrite Hrow. apply IH.
    intros index df Hin. apply Hall. by right.
Qed.

End Collection.

(** X11. In collection mode the labels do not influence one another.  A
    batch with distinct labels that returns has exactly one row per label,
    and the row of a label is the row that label's table yields when
    aggregated on its own; the defaults are as before the call. *)
Theorem labels_are_independent
    (hrv : gmap string (list nat) -> Z -> result (DataFrame float))
    (data : list (string * DataFrame cell)) (sampling_rate : Z) (st st' : defaults)
    (rows : gmap string dict) :
  NoDup (map fst data) ->
  ppg_intervalrelated hrv (Epochs data) sampling_rate st = (Ok (SummaryRows rows), st') ->
  st' = st
  /\ (forall index, is_Some (rows !! index) <-> index ∈ map fst data)
  /\ (forall index df,
        (index, df) ∈ data ->
        exists row,
          rows !! index = Some row
          /\ ppg_intervalrelated hrv (Epochs [(index, df)]) sampling_rate st
             = (Ok (SummaryRows {[index := row]}), st)).
Proof.
  intros Hnd Hrun.
  pose proof (collection_mode_keeps_defaults hrv data sampling_rate st) as Hst.
  rewrite Hrun in Hst. cbn [snd] in Hst. subst st'.
  rewrite epochs_run in Hrun.
  destruct (for_each data ∅ (epoch_step hrv sampling_rate) st) as [[e|rows'] st1] eqn:Hloop;
    [discriminate|].
  injection Hrun as -> ->.
  destruct (epochs_loop_rows hrv sampling_rate data ∅ rows st st Hloop Hnd) as [Hother Hin].
  split; [reflexivity|]. split.
  - intros index. split.
    + intros Hsome. destruct (decide (index ∈ map fst data)) as [|Hn]; [done|].
      rewrite (Hother index Hn), lookup_empty in Hsome. by destruct Hsome.
    + intros ((i & df) & -> & Hel)%list_elem_of_fmap.
      destruct (Hin i df Hel) as (row & Hrow & _). cbn [fst]. by rewrite Hrow.
  - intros index df Hel. destruct (Hin index df Hel) as (row & Hrow & Hstep).
    exists row. split; [exact Hrow|]. by apply singleton_run.
Qed.

Lemma labels_are_independent_witness :
  exists rows row,
    ppg_intervalrelated Samples.hrv_stub
      (Epochs [("A", Samples.epoch "A"); ("B", Samples.epoch "B")]) 100 fresh
      = (Ok (SummaryRows rows), fresh)
    /\ rows !! "B" = Some row
    /\ ppg_intervalrelated Samples.hrv_stub (Epochs [("B", Samples.epoch "B")]) 100 fresh
       = (Ok (SummaryRows {["B" := row]}), fresh).
Proof.
  assert (exists rows,
            ppg_intervalrelated Samples.hrv_stub
              (Epochs [("A", Samples.epoch "A"); ("B", Samples.epoch "B")]) 100 fresh
            = (Ok (SummaryRows rows), fresh)) as [rows Hrun]
    by (eexists; vm_compute; reflexivity).
  destruct (labels_are_independent Samples.hrv_stub
              [("A", Samples.epoch "A"); ("B", Samples.epoch "B")] 100 fresh fresh rows)
    as (_ & _ & Hrow).
  - apply (bool_decide_unpack _). vm_compute. exact I.
  - exact Hrun.
  - destruct (Hrow "B" (Samples.epoch "B")) as (row & Hb & Hsingle).
    + apply elem_of_cons. right. apply elem_of_cons. by left.
    + by exists rows, row.
Defined.

(** X12. A batch returns if and only if every label's table can be
    aggregated on its own: one table that cannot be makes the whole call
    raise, and nothing else does. *)
Theorem batch_returns_iff_every_label_does
    (hrv : gmap string (list nat) -> Z -> result (DataFrame float))
    (data : list (string * DataFrame cell)) (sampling_rate : Z) (st : defaults) :
  NoDup (map fst data) ->
  (exists rows,
     ppg_intervalrelated hrv (Epochs data) sampling_rate st = (Ok (SummaryRows rows), st))
  <-> (forall index df,
         (index, df) ∈ data ->
         exists row,
           ppg_intervalrelated hrv (Epochs [(index, df)]) sampling_rate st
             = (Ok (SummaryRows {[index := row]}), st)).
Proof.
  intros Hnd. split.
  - intros [rows Hrun] index df Hel. rewrite epochs_run in Hrun.
    destruct (for_each data ∅ (epoch_step hrv sampling_rate) st) as [[e|rows'] st1] eqn:Hloop;
      [discriminate|].
    injection Hrun as -> ->.
    destruct (epochs_loop_rows hrv sampling_rate data ∅ rows st st Hloop Hnd) as [_ Hin].
    destruct (Hin index df Hel) as (row & _ & Hstep).
    exists row. by apply singleton_run.
  - intros Hall. rewrite epochs_run.
    destruct (epochs_loop_total hrv sampling_rate data ∅ st) as [rows ->]; [|by exists rows].
    intros index df Hel. destruct (Hall index df Hel) as [row Hsingle].
    destruct (epoch_step_shape hrv sampling_rate df) as [r Hr].
    rewrite epochs_run in Hsingle. cbn [for_each] in Hsingle. unfold bind in Hsingle.
    rewrite Hr in Hsingle. destruct r as [e|row']; [discriminate|].
    exists row'. intros. apply Hr.
Qed.

Lemma batch_returns_iff_every_label_does_witness :
  exists rows,
    ppg_intervalrelated Samples.hrv_stub
      (Epochs [("A", Samples.epoch "A"); ("B", Samples.epoch "B")]) 100 fresh
      = (Ok (SummaryRows rows), fresh).
Proof.
  apply (proj2 (batch_returns_iff_every_label_does Samples.hrv_stub
                  [("A", Samples.epoch "A"); ("B", Samples.epoch "B")] 100 fresh
                  ltac:(apply (bool_decide_unpack _); vm_compute; exact I))).
  intros index df Hel.
  apply elem_of_cons in Hel as [Heq|Hel].
  - injection Heq as -> ->. eexists. vm_compute. reflexivity.
  - apply elem_of_cons in Hel as [Heq|Hel].
    + injection Heq as -> ->. eexists. vm_compute. reflexivity.
    + by apply not_elem_of_nil in Hel.
Defined.

(** ** The two modes side by side *)

(** X13. On a table both modes accept, the row of collection mode and the
    row of a first single-table call agree on every key but [Label], which
    only collection mode fills, with the first entry of the table's label
    column. *)
Theorem collection_row_matches_single_table
    (hrv : gmap string (list nat) -> Z -> result (DataFrame float))
    (df : DataFrame cell) (sampling_rate : Z) (st : defaults) (index : string)
    (label : pyval) (a : ndarray cell) (m : float) (idx : list nat)
    (results : DataFrame float) :
  length (rate_cols df) = 1 ->
  label_iloc0 df = Ok label ->
  getitem_values df "PPG_Rate" = Ok a ->
  np_mean a = Ok m ->
  peaks_indices df = Ok idx ->
  hrv {["PPG_Peaks" := idx]} sampling_rate = Ok results ->
  exists single st1 row,
    ppg_intervalrelated hrv (Table df) sampling_rate fresh = (Ok (SummaryRow single), st1)
    /\ ppg_intervalrelated hrv (Epochs [(index, df)]) sampling_rate st
       = (Ok (SummaryRows {[index := row]}), st)
    /\ (forall k, k <> "Label" -> row !! k = single !! k)
    /\ ("Label" ∉ columns results ->
        row !! "Label" = Some label /\ single !! "Label" = None).
Proof.
  intros H1 Hlabel Ha Hm Hidx Hhrv.
  destruct (table_run_ok hrv df sampling_rate fresh a m idx results) as (o2 & Ho2 & Hsingle);
    [done..|].
  destruct (epoch_step_ok hrv sampling_rate df label a m idx results) as (row & Hrow & Hstep);
    [done..|].
  destruct (store_columns_lookup results
              (<["PPG_Rate_Mean" := Scalar (Flt m)]> (<["Label" := label]> ∅)))
    as (row' & Hrow' & Hlook).
  assert (row' = row) as -> by congruence.
  eexists _, _, row. split; [exact Hsingle|].
  split; [by apply singleton_run|]. split.
  - intros k Hne. rewrite Hlook, (table_row_lookup fresh m results o2 k Ho2).
    destruct (getitem_values results k); [|reflexivity].
    cbn [fresh hrv_output formatinput_output]. rewrite !lookup_empty.
    destruct (decide (k = "PPG_Rate_Mean")) as [->|Hk].
    + apply lookup_insert_eq.
    + by rewrite !lookup_insert_ne.
  - intros Hcol. split.
    + rewrite Hlook, getitem_values_missing by done.
      rewrite lookup_insert_ne by done. apply lookup_insert_eq.
    + rewrite (table_row_lookup fresh m results o2 _ Ho2), getitem_values_missing by done.
      cbn [fresh hrv_output formatinput_output]. by rewrite !lookup_empty.
Qed.

Lemma collection_row_matches_single_table_witness :
  exists single st1 row,
    ppg_intervalrelated Samples.hrv_stub (Table (Samples.epoch "A")) 100 fresh
      = (Ok (SummaryRow single), st1)
    /\ ppg_intervalrelated Samples.hrv_stub (Epochs [("A", Samples.epoch "A")]) 100 fresh
       = (Ok (SummaryRows {["A" := row]}), fresh)
    /\ row !! "HRV_MeanNN" = single !! "HRV_MeanNN"
    /\ row !! "Label" = Some (Scalar (Txt "A")).
Proof.
  destruct (collection_row_matches_single_table Samples.hrv_stub (Samples.epoch "A") 100
              fresh "A" (Scalar (Txt "A"))
              (Arr1 [Samples.num 70; Samples.num 70; Samples.num 70])
              (Num (inject_Z 70)) [1]
              (mkFrame 1 [("HRV_MeanNN", [Num (inject_Z 1)])])
              eq_refl eq_refl eq_refl eq_refl eq_refl eq_refl)
    as (single & st1 & row & Hs & Hc & Hsame & Hlab).
  exists single, st1, row. split; [exact Hs|]. split; [exact Hc|]. split.
  - apply Hsame. discriminate.
  - apply Hlab. apply (bool_decide_unpack _). vm_compute. exact I.
Defined.

(** X14. The two modes do not check the rate column alike.  A table with
    several columns matching the rate pattern, one of them named
    [PPG_Rate], is rejected in single-table mode and aggregated in
    collection mode, where the check only asks for at least one match. *)
Theorem collection_mode_accepts_several_rate_columns
    (hrv : gmap string (list nat) -> Z -> result (DataFrame float))
    (df : DataFrame cell) (sampling_rate : Z) (st : defaults) (index : string)
    (label : pyval) (a : ndarray cell) (m : float) (idx : list nat)
    (results : DataFrame float) :
  length (rate_cols df) <> 1 ->
  label_iloc0 df = Ok label ->
  getitem_values df "PPG_Rate" = Ok a ->
  np_mean a = Ok m ->
  peaks_indices df = Ok idx ->
  hrv {["PPG_Peaks" := idx]} sampling_rate = Ok results ->
  2 <= length (rate_cols df)
  /\ ppg_intervalrelated hrv (Table df) sampling_rate st = (Raise (ValueError rate_msg), st)
  /\ exists row,
       ppg_intervalrelated hrv (Epochs [(index, df)]) sampling_rate st
         = (Ok (SummaryRows {[index := row]}), st)
       /\ ("PPG_Rate_Mean" ∉ columns results ->
           row !! "PPG_Rate_Mean" = Some (Scalar (Flt m))).
Proof.
  intros H1 Hlabel Ha Hm Hidx Hhrv.
  pose proof (rate_values_cols df a Ha) as Hr.
  split; [destruct (rate_cols df) as [|c [|c' cs]]; simpl in *; [done | done | lia]|].
  split.
  - unfold ppg_intervalrelated. fold (rate_cols df).
    destruct (Nat.eqb_spec (length (rate_cols df)) 1); [contradiction | reflexivity].
  - destruct (epoch_step_ok hrv sampling_rate df label a m idx results)
      as (row & Hrow & Hstep); [done..|].
    destruct (store_columns_lookup results
                (<["PPG_Rate_Mean" := Scalar (Flt m)]> (<["Label" := label]> ∅)))
      as (row' & Hrow' & Hlook).
    assert (row' = row) as -> by congruence.
    exists row. split; [by apply singleton_run|].
    intros Hcol. rewrite Hlook, getitem_values_missing by done. apply lookup_insert_eq.
Qed.

Lemma collection_mode_accepts_several_rate_columns_witness :
  ppg_intervalrelated Samples.hrv_stub (Table (Samples.epoch_two_rates "A")) 100 fresh
    = (Raise (ValueError rate_msg), fresh)
  /\ exists row,
       ppg_intervalrelated Samples.hrv_stub
         (Epochs [("A", Samples.epoch_two_rates "A")]) 100 fresh
         = (Ok (SummaryRows {["A" := row]}), fresh)
       /\ row !! "PPG_Rate_Mean" = Some (Scalar (Samples.num 70)).
Proof.
  destruct (collection_mode_accepts_several_rate_columns Samples.hrv_stub
              (Samples.epoch_two_rates "A") 100 fresh "A" (Scalar (Txt "A"))
              (Arr1 [Samples.num 70; Samples.num 70; Samples.num 70])
              (Num (inject_Z 70)) [1]
              (mkFrame 1 [("HRV_MeanNN", [Num (inject_Z 1)])]))
    as (_ & Htable & row & Hrun & Hmean);
    [vm_compute; lia | reflexivity..|].
  split; [exact Htable|]. exists row. split; [exact Hrun|].
  apply Hmean. apply (bool_decide_unpack _). vm_compute. exact I.
Defined.

(** ** The label field *)

(** X15. In collection mode the label field is read before any schema
    check.  For the first label that fails: a table without a [Label]
    column raises the key-lookup error for [Label], and a table whose
    [Label] column is empty raises an index error, whether or not the rate
    and events columns are there. *)
Theorem label_is_read_first
    (hrv : gmap string (list nat) -> Z -> result (DataFrame float))
    (pre post : list (string * DataFrame cell)) (index : string) (df : DataFrame cell)
    (sampling_rate : Z) (st : defaults) (rows : gmap string dict) :
  ppg_intervalrelated hrv (Epochs pre) sampling_rate st = (Ok (SummaryRows rows), st) ->
  ("Label" ∉ columns df ->
   ppg_intervalrelated hrv (Epochs (pre ++ (index, df) :: post)) sampling_rate st
     = (Raise (KeyError "Label"), st))
  /\ (getitem_values df "Label" = Ok (Arr1 []) ->
      ppg_intervalrelated hrv (Epochs (pre ++ (index, df) :: post)) sampling_rate st
        = (Raise (IndexError "single positional indexer is out-of-bounds"), st)).
Proof.
  intros Hpre. rewrite epochs_run in Hpre. rewrite epochs_run, for_each_app.
  destruct (for_each pre ∅ (epoch_step hrv sampling_rate) st) as [[e|acc] st1];
    [discriminate|].
  injection Hpre as _ ->.
  cbn [for_each]. unfold bind. rewrite epoch_step_run. unfold label_iloc0.
  split.
  - intros Hk. by rewrite getitem_values_missing.
  - by intros ->.
Qed.

Lemma label_is_read_first_witness :
  ppg_intervalrelated Samples.hrv_stub
    (Epochs [("A", Samples.epoch "A"); ("B", Samples.unlabelled_table)]) 100 fresh
    = (Raise (KeyError "Label"), fresh)
  /\ rate_cols Samples.unlabelled_table = [].
Proof.
  split; [|reflexivity].
  assert (exists rows,
            ppg_intervalrelated Samples.hrv_stub (Epochs [("A", Samples.epoch "A")]) 100 fresh
            = (Ok (SummaryRows rows), fresh)) as [rows Hpre]
    by (eexists; vm_compute; reflexivity).
  apply (proj1 (label_is_read_first Samples.hrv_stub [("A", Samples.epoch "A")] []
                  "B" Samples.unlabelled_table 100 fresh rows Hpre)).
  apply (bool_decide_unpack _). vm_compute. exact I.
Defined.

(** ** Events columns that are not clean masks *)

(** X16. Whatever a single events column holds, the index sequence handed
    to the engine lists exactly the positions of its non-zero entries, in
    increasing order and within the bounds of the column; an entry that is
    NaN, or a number other than one, counts as an event all the same. *)
Theorem peaks_indices_of_any_column (data : DataFrame cell) (mask : list cell) :
  getitem_values data "PPG_Peaks" = Ok (Arr1 mask) ->
  exists idx,
    peaks_indices data = Ok idx
    /\ (forall i, i ∈ idx <-> exists c, mask !! i = Some c /\ truthy c = true)
    /\ Forall (fun i => i < length mask) idx
    /\ StronglySorted lt idx
    /\ (forall i, mask !! i = Some (Flt NaN) -> i ∈ idx)
    /\ (forall i q, mask !! i = Some (Flt (Num q)) -> ~ (q == 0)%Q -> i ∈ idx).
Proof.
  intros Hget. exists (where_from 0 mask).
  split; [unfold peaks_indices; by rewrite Hget|].
  assert (forall i, i ∈ where_from 0 mask <-> exists c, mask !! i = Some c /\ truthy c = true)
    as Hspec.
  { intros i. rewrite where_from_elem. split.
    - intros (k & c & -> & Hk & Hc). by exists c.
    - intros (c & Hk & Hc). by exists i, c. }
  split; [exact Hspec|]. split.
  { apply Forall_forall. intros i (c & Hc & _)%Hspec. by eapply lookup_lt_Some. }
  split; [apply where_from_sorted|]. split.
  - intros i Hi. apply Hspec. by exists (Flt NaN).
  - intros i q Hi Hq. apply Hspec. exists (Flt (Num q)). split; [done|].
    simpl. apply negb_true_iff, not_true_is_false. by intros ?%Qeq_bool_iff.
Qed.

Lemma peaks_indices_of_any_column_witness :
  exists idx, peaks_indices Samples.rough_mask_table = Ok idx /\ idx = [1; 2].
Proof.
  destruct (peaks_indices_of_any_column Samples.rough_mask_table
              [Samples.num 0; Samples.num 2; Flt NaN; Samples.num 0] eq_refl)
    as (idx & Hidx & _).
  exists idx. split; [exact Hidx|]. vm_compute in Hidx. congruence.
Defined.

(** ** What the schema checks match *)

(** X17. The columns the two schema checks count are the columns whose name
    has [PPG_Rate], respectively [PPG_Peaks], as a substring, at any
    position. *)
Theorem schema_checks_match_substrings (data : DataFrame cell) (col : string) :
  (col ∈ rate_cols data <->
   col ∈ columns data /\ exists a b, col = a +:+ "PPG_Rate" +:+ b)
  /\ (col ∈ peaks_cols data <->
      col ∈ columns data /\ exists a b, col = a +:+ "PPG_Peaks" +:+ b).
Proof.
  unfold rate_cols, peaks_cols.
  split; rewrite list_elem_of_filter, contains_spec; tauto.
Qed.
